(** * Issue Analyzer: a shallow embedding of [.github/scripts/analyze_issue.py]

    The script reads an issue from the process environment, asks a generative
    model for a JSON analysis, optionally runs a web search and a second model
    call, and posts a message to a Slack webhook.

    Modelling decisions, in the order of the file:

    - a Python [str] is a list of Unicode code points ([N]), so that slices
      ([[:500]], [[:200]], [[4:]]) and [str.strip] count characters the way
      Python does; a literal of the source is written [u "text"];
    - a Python value that comes out of [json.loads] is a [pyval]; a [dict] is an
      association list in insertion order with unique keys, as Python keeps it;
    - [json.loads] is the grammar of Python's [json] module (strict strings,
      [NaN] / [Infinity] accepted, last duplicate key wins), without the
      interpreter's resource limits (recursion depth, integer digit limit);
    - the three remote services (the generative model, the Tavily search client
      and the Slack webhook) are oracles of a [World]: a call returns or raises
      what the oracle says, and every call and every [print] is recorded as an
      [event] in the trace of the run; the search client returns its results
      as title / content pairs of strings, as its API documents them;
    - a prompt is kept as the values its template is filled with, and the text
      of an f-string that formats a [pyval] as the list of its pieces, since
      [str(v)] of an arbitrary value is not rendered;
    - a computation is a pair of a [result] (a value or a raised exception) and
      the trace it produced;
    - the value of a run of [main] is the exit status of the process. *)

From Stdlib Require Import List NArith ZArith String Ascii Bool Lia.
Import ListNotations.

Set Warnings "-register-all".

(* ------------------------------------------------------------------------- *)
(** ** Python strings *)

Module PyStr.

Definition char := N.
Definition str := list char.

Definition bytes_of (s : string) : list N :=
  map N_of_ascii (list_ascii_of_string s).

(** UTF-8 decoding of a literal; [pending] continuation bytes are still due for
    the code point accumulated in [acc]. *)
Fixpoint utf8_go (pending : nat) (acc : N) (bs : list N) : str :=
  match bs with
  | [] => []
  | b :: bs' =>
    if (b <? 128)%N then b :: utf8_go 0 0%N bs'
    else if (b <? 192)%N then
      match pending with
      | 1%nat => (acc * 64 + (b - 128))%N :: utf8_go 0 0%N bs'
      | S k => utf8_go k (acc * 64 + (b - 128))%N bs'
      | O => utf8_go 0 0%N bs'
      end
    else if (b <? 224)%N then utf8_go 1 (b - 192)%N bs'
    else if (b <? 240)%N then utf8_go 2 (b - 224)%N bs'
    else utf8_go 3 (b - 240)%N bs'
  end.

(** The code points of a text written in UTF-8. *)
Definition utf8 (s : string) : str := utf8_go 0 0%N (bytes_of s).

Fixpoint eqb (a b : str) : bool :=
  match a, b with
  | [], [] => true
  | x :: a', y :: b' => (x =? y)%N && eqb a' b'
  | _, _ => false
  end.

(** [str.startswith(prefix)] *)
Fixpoint startswith (s prefix : str) {struct prefix} : bool :=
  match prefix, s with
  | [], _ => true
  | _ :: _, [] => false
  | p :: prefix', c :: s' => (c =? p)%N && startswith s' prefix'
  end.

(** [str.isspace] on one character: the code points CPython's
    [_PyUnicode_IsWhitespace] accepts. *)
Definition isspace (c : char) : bool :=
  ((9 <=? c) && (c <=? 13) || (28 <=? c) && (c <=? 32)
   || (c =? 133) || (c =? 160) || (c =? 5760)
   || (8192 <=? c) && (c <=? 8202)
   || (c =? 8232) || (c =? 8233) || (c =? 8239) || (c =? 8287)
   || (c =? 12288))%N.

Fixpoint lstrip (s : str) : str :=
  match s with
  | [] => []
  | c :: s' => if isspace c then lstrip s' else s
  end.

Definition rstrip (s : str) : str := rev (lstrip (rev s)).

(** [str.strip()] *)
Definition strip (s : str) : str := rstrip (lstrip s).

(** [s.split(sep)] for a non-empty [sep]: the text is scanned from the left,
    [skip] characters of a separator just matched are still to be jumped over,
    and [cur] holds the current piece in reverse. *)
Fixpoint split_from (sep : str) (skip : nat) (cur : str) (s : str) : list str :=
  match s with
  | [] => [rev cur]
  | c :: s' =>
    match skip with
    | S k => split_from sep k cur s'
    | O =>
      if startswith s sep
      then rev cur :: split_from sep (List.length sep - 1) [] s'
      else split_from sep 0 (c :: cur) s'
    end
  end.

Definition split (s sep : str) : list str := split_from sep 0 [] s.

(** [sep in s] *)
Fixpoint contains (s sep : str) : bool :=
  match s with
  | [] => startswith [] sep
  | _ :: s' => startswith s sep || contains s' sep
  end.

(** No separator starts inside [s] when [s] is followed by a closing one:
    every non-empty suffix of [s], continued by [sep], does not start with
    [sep]. *)
Fixpoint free_before_end (sep s : str) : bool :=
  match s with
  | [] => true
  | _ :: s' => negb (startswith (s ++ sep) sep) && free_before_end sep s'
  end.

(** [sep.join(parts)] *)
Fixpoint join (sep : str) (parts : list str) : str :=
  match parts with
  | [] => []
  | [p] => p
  | p :: rest => p ++ sep ++ join sep rest
  end.

(** [s[:n]] and [s[n:]] for a non-negative constant [n]. *)
Definition slice_to (n : nat) (s : str) : str := firstn n s.
Definition slice_from (n : nat) (s : str) : str := skipn n s.

End PyStr.

Import PyStr.

(** [u "text"] is the Python literal ["text"]: its code points, computed once
    where the literal stands. *)
Notation "'u' s" :=
  (ltac:(let v := eval vm_compute in (utf8 s%string) in exact v))
  (at level 1, s at level 0, only parsing).

(* ------------------------------------------------------------------------- *)
(** ** Python values *)

(** A float as [json.loads] reads it: the decimal literal
    [(-1)^neg * m * 10^e], or one of the three constants the module accepts. *)
Inductive pyfloat : Type :=
| FDec (neg : bool) (m : N) (e : Z)
| FNaN
| FInf (neg : bool).

Inductive pyval : Type :=
| PNone
| PBool (b : bool)
| PInt (z : Z)
| PFloat (f : pyfloat)
| PStr (s : str)
| PList (l : list pyval)
| PDict (d : list (str * pyval)).

Definition dict := list (str * pyval).

(** [d.get(k)] seen as an option. *)
Fixpoint dict_get (d : dict) (k : str) : option pyval :=
  match d with
  | [] => None
  | (k', v) :: d' => if PyStr.eqb k' k then Some v else dict_get d' k
  end.

(** [d.get(k, default)] *)
Definition dict_get_or (d : dict) (k : str) (default : pyval) : pyval :=
  match dict_get d k with
  | Some x => x
  | None => default
  end.

(** [d[k] = v]: an existing key keeps its place, a new one goes last. *)
Fixpoint dict_set (d : dict) (k : str) (v : pyval) : dict :=
  match d with
  | [] => [(k, v)]
  | (k', v') :: d' =>
    if PyStr.eqb k' k then (k', v) :: d' else (k', v') :: dict_set d' k v
  end.

(** [float(literal) != 0.0]: the literal rounds to a non-zero double exactly
    when it is larger than half the smallest subnormal, [2^-1075]. *)
Definition float_nonzero (f : pyfloat) : bool :=
  match f with
  | FNaN | FInf _ => true
  | FDec _ m e =>
    if (0 <=? e)%Z then negb (m =? 0)%N
    else (10 ^ (- e) <? Z.of_N m * 2 ^ 1075)%Z
  end.

(** [bool(v)] *)
Definition truthy (v : pyval) : bool :=
  match v with
  | PNone => false
  | PBool b => b
  | PInt z => negb (z =? 0)%Z
  | PFloat f => float_nonzero f
  | PStr s => match s with [] => false | _ => true end
  | PList l => match l with [] => false | _ => true end
  | PDict d => match d with [] => false | _ => true end
  end.

(** [bool(x)] for an environment variable read with [os.environ.get]. *)
Definition env_truthy (x : option str) : bool :=
  match x with
  | Some (_ :: _) => true
  | _ => false
  end.

(* ------------------------------------------------------------------------- *)
(** ** Exceptions, results and traces *)

(** The exceptions the script can meet.  [ValueError] is what [response.text]
    raises on a response without text; [ServiceError] stands for whatever a
    client library of a remote service raises (a subclass of [Exception]);
    [RequestException] for [requests.exceptions.RequestException] and its
    subclasses other than [HTTPError], which [raise_for_status] raises. *)
Inductive exn : Type :=
| AttributeError
| KeyError (key : str)
| TypeError
| IndexError
| ValueError (msg : str)
| JSONDecodeError
| ServiceError (msg : str)
| RequestException (msg : str)
| HTTPError (status_code : Z).

Inductive result (A : Type) : Type :=
| Ok (a : A)
| Raise (e : exn).

Arguments Ok {A} a.
Arguments Raise {A} e.

(* ------------------------------------------------------------------------- *)
(** ** [json.loads] *)

Module Json.

Inductive token : Type :=
| TLBrace | TRBrace | TLBracket | TRBracket | TComma | TColon
| TVal (v : pyval).

Definition is_digit (c : char) : bool := ((48 <=? c) && (c <=? 57))%N.

Definition hex_digit (c : char) : option N :=
  if is_digit c then Some (c - 48)%N
  else if ((97 <=? c) && (c <=? 102))%N then Some (c - 87)%N
  else if ((65 <=? c) && (c <=? 70))%N then Some (c - 55)%N
  else None.

Definition hex4 (a b c d : char) : option N :=
  match hex_digit a, hex_digit b, hex_digit c, hex_digit d with
  | Some x, Some y, Some z, Some w => Some (((x * 16 + y) * 16 + z) * 16 + w)%N
  | _, _, _, _ => None
  end.

Definition is_high_surrogate (c : N) : bool := ((55296 <=? c) && (c <=? 56319))%N.
Definition is_low_surrogate (c : N) : bool := ((56320 <=? c) && (c <=? 57343))%N.

(** A high surrogate [uni] followed by the escape of a low one, the six
    characters [b l a1 a2 a3 a4], is one code point outside the basic plane. *)
Definition surrogate_pair (uni : N) (b l a1 a2 a3 a4 : char) : option N :=
  if (is_high_surrogate uni && (b =? 92) && (l =? 117))%N then
    match hex4 a1 a2 a3 a4 with
    | Some lo =>
      if is_low_surrogate lo
      then Some (65536 + ((uni - 55296) * 1024 + (lo - 56320)))%N
      else None
    | None => None
    end
  else None.

Definition simple_escape (c : char) : option char :=
  if (c =? 34)%N then Some 34%N
  else if (c =? 92)%N then Some 92%N
  else if (c =? 47)%N then Some 47%N
  else if (c =? 98)%N then Some 8%N
  else if (c =? 102)%N then Some 12%N
  else if (c =? 110)%N then Some 10%N
  else if (c =? 114)%N then Some 13%N
  else if (c =? 116)%N then Some 9%N
  else None.

Definition cons_char (c : char) (n : nat) (r : option (str * nat)) : option (str * nat) :=
  match r with
  | Some (s, k) => Some (c :: s, (n + k)%nat)
  | None => None
  end.

(** The body of a string literal, after its opening quote: the decoded text and
    the number of characters read, closing quote included ([py_scanstring] in
    strict mode). *)
Fixpoint scan_string (s : str) : option (str * nat) :=
  match s with
  | [] => None
  | c :: s' =>
    if (c =? 34)%N then Some ([], 1%nat)
    else if (c <? 32)%N then None
    else if (c =? 92)%N then
      match s' with
      | [] => None
      | e :: s'' =>
        if (e =? 117)%N then
          match s'' with
          | a1 :: a2 :: a3 :: a4 :: rest =>
            match hex4 a1 a2 a3 a4 with
            | None => None
            | Some uni =>
              match rest with
              | b :: l :: b1 :: b2 :: b3 :: b4 :: rest2 =>
                match surrogate_pair uni b l b1 b2 b3 b4 with
                | Some c' => cons_char c' 12 (scan_string rest2)
                | None => cons_char uni 6 (scan_string rest)
                end
              | _ => cons_char uni 6 (scan_string rest)
              end
            end
          | _ => None
          end
        else
          match simple_escape e with
          | Some c' => cons_char c' 2 (scan_string s'')
          | None => None
          end
      end
    else cons_char c 1 (scan_string s')
  end.

(** Leading decimal digits of [s] (as digit values) and what follows them. *)
Fixpoint span_digits (s : str) : list N * str :=
  match s with
  | c :: s' =>
    if is_digit c
    then let (ds, rest) := span_digits s' in ((c - 48)%N :: ds, rest)
    else ([], s)
  | [] => ([], [])
  end.

Definition digits_value (ds : list N) : N :=
  fold_left (fun acc d => (acc * 10 + d)%N) ds 0%N.

(** The integer part of [NUMBER_RE]: [0] or a digit [1-9] followed by digits. *)
Definition scan_int_part (s : str) : option (list N * str) :=
  match s with
  | c :: s' =>
    if (c =? 48)%N then Some ([0%N], s')
    else if is_digit c then Some (span_digits s)
    else None
  | [] => None
  end.

(** The optional fraction: a dot followed by at least one digit. *)
Definition scan_frac (s : str) : option (list N * str) :=
  match s with
  | c :: s' =>
    if (c =? 46)%N then
      match span_digits s' with
      | ([], _) => None
      | r => Some r
      end
    else None
  | [] => None
  end.

(** The optional exponent: [e] or [E], an optional sign, at least one digit.
    The exponent and the number of characters read. *)
Definition scan_exp (s : str) : option (Z * nat) :=
  match s with
  | c :: s' =>
    if ((c =? 101) || (c =? 69))%N then
      match s' with
      | sg :: s'' =>
        if ((sg =? 43) || (sg =? 45))%N then
          match span_digits s'' with
          | ([], _) => None
          | (ds, _) =>
            let v := Z.of_N (digits_value ds) in
            Some (if (sg =? 45)%N then (- v)%Z else v, (2 + List.length ds)%nat)
          end
        else
          match span_digits s' with
          | ([], _) => None
          | (ds, _) => Some (Z.of_N (digits_value ds), (1 + List.length ds)%nat)
          end
      | [] => None
      end
    else None
  | [] => None
  end.

(** A number at the head of [s], with the number of characters it takes:
    an [int] when it has neither fraction nor exponent, a [float] otherwise. *)
Definition scan_number (s : str) : option (pyval * nat) :=
  let (neg, body) :=
    match s with
    | c :: s' => if (c =? 45)%N then (true, s') else (false, s)
    | [] => (false, s)
    end in
  let nsign := if neg then 1%nat else 0%nat in
  match scan_int_part body with
  | None => None
  | Some (ids, after_int) =>
    let '(fds, after_frac, nfrac) :=
      match scan_frac after_int with
      | Some (fds, r) => (fds, r, Some (List.length fds))
      | None => ([], after_int, None)
      end in
    let ex := scan_exp after_frac in
    match nfrac, ex with
    | None, None =>
      let v := Z.of_N (digits_value ids) in
      Some (PInt (if neg then (- v)%Z else v), (nsign + List.length ids)%nat)
    | _, _ =>
      let flen := match nfrac with Some k => S k | None => 0%nat end in
      let (e, elen) := match ex with Some r => r | None => (0%Z, 0%nat) end in
      Some (PFloat (FDec neg (digits_value (ids ++ fds))
                         (e - Z.of_nat (List.length fds))%Z),
            (nsign + List.length ids + flen + elen)%nat)
    end
  end.

(** One token at the head of [s] and its length, in the order of the module's
    [scan_once]. *)
Definition scan_token (s : str) : option (token * nat) :=
  match s with
  | [] => None
  | c :: s' =>
    if (c =? 34)%N then
      match scan_string s' with
      | Some (x, n) => Some (TVal (PStr x), S n)
      | None => None
      end
    else if (c =? 123)%N then Some (TLBrace, 1%nat)
    else if (c =? 125)%N then Some (TRBrace, 1%nat)
    else if (c =? 91)%N then Some (TLBracket, 1%nat)
    else if (c =? 93)%N then Some (TRBracket, 1%nat)
    else if (c =? 44)%N then Some (TComma, 1%nat)
    else if (c =? 58)%N then Some (TColon, 1%nat)
    else if startswith s (u "null") then Some (TVal PNone, 4%nat)
    else if startswith s (u "true") then Some (TVal (PBool true), 4%nat)
    else if startswith s (u "false") then Some (TVal (PBool false), 5%nat)
    else
      match scan_number s with
      | Some r => Some (TVal (fst r), snd r)
      | None =>
        if startswith s (u "NaN") then Some (TVal (PFloat FNaN), 3%nat)
        else if startswith s (u "Infinity") then Some (TVal (PFloat (FInf false)), 8%nat)
        else if startswith s (u "-Infinity") then Some (TVal (PFloat (FInf true)), 9%nat)
        else None
      end
  end.

(** JSON whitespace: space, tab, line feed, carriage return. *)
Definition is_ws (c : char) : bool :=
  ((c =? 32) || (c =? 9) || (c =? 10) || (c =? 13))%N.

(** The tokens of a text; [skip] characters of the token just read are still to
    be jumped over. *)
Fixpoint lex (skip : nat) (s : str) : option (list token) :=
  match s with
  | [] => Some []
  | c :: s' =>
    match skip with
    | S k => lex k s'
    | O =>
      if is_ws c then lex 0 s'
      else
        match scan_token s with
        | Some (t, n) =>
          match lex (n - 1) s' with
          | Some ts => Some (t :: ts)
          | None => None
          end
        | None => None
        end
    end
  end.

(** A container being read: a list with the elements so far, or an object with
    the members so far and the key whose value is awaited. *)
Inductive frame : Type :=
| FList (elems : list pyval)
| FDict (members : dict) (key : option str).

Inductive mode : Type :=
| MValue           (* a value is due *)
| MListOpen        (* just after an opening bracket: a value or the closing one *)
| MDictOpen        (* just after an opening brace: a key or the closing one *)
| MKey             (* after a comma inside an object: a key *)
| MColon           (* after a key *)
| MAfter           (* after a value inside a container *)
| MDone (v : pyval).

Definition pstate := (mode * list frame)%type.

(** A complete value [v] goes to the innermost open container. *)
Definition deliver (v : pyval) (stack : list frame) : option pstate :=
  match stack with
  | [] => Some (MDone v, [])
  | FList elems :: st => Some (MAfter, FList (elems ++ [v]) :: st)
  | FDict members (Some k) :: st => Some (MAfter, FDict (dict_set members k v) None :: st)
  | FDict _ None :: _ => None
  end.

Definition step (st : pstate) (t : token) : option pstate :=
  let (m, stack) := st in
  match m with
  | MValue | MListOpen =>
    match t with
    | TVal v => deliver v stack
    | TLBracket => Some (MListOpen, FList [] :: stack)
    | TLBrace => Some (MDictOpen, FDict [] None :: stack)
    | TRBracket =>
      match m, stack with
      | MListOpen, FList elems :: stack' => deliver (PList elems) stack'
      | _, _ => None
      end
    | _ => None
    end
  | MDictOpen | MKey =>
    match t, stack with
    | TVal (PStr k), FDict members _ :: stack' =>
      Some (MColon, FDict members (Some k) :: stack')
    | TRBrace, FDict members _ :: stack' =>
      match m with
      | MDictOpen => deliver (PDict members) stack'
      | _ => None
      end
    | _, _ => None
    end
  | MColon =>
    match t with
    | TColon => Some (MValue, stack)
    | _ => None
    end
  | MAfter =>
    match t, stack with
    | TComma, FList _ :: _ => Some (MValue, stack)
    | TComma, FDict _ _ :: _ => Some (MKey, stack)
    | TRBracket, FList elems :: stack' => deliver (PList elems) stack'
    | TRBrace, FDict members _ :: stack' => deliver (PDict members) stack'
    | _, _ => None
    end
  | MDone _ => None
  end.

Fixpoint run (st : pstate) (ts : list token) : option pstate :=
  match ts with
  | [] => Some st
  | t :: ts' =>
    match step st t with
    | Some st' => run st' ts'
    | None => None
    end
  end.

(** [json.loads(s)]: the value, or [JSONDecodeError]. *)
Definition loads (s : str) : result pyval :=
  match lex 0 s with
  | None => Raise JSONDecodeError
  | Some ts =>
    match run (MValue, []) ts with
    | Some (MDone v, _) => Ok v
    | _ => Raise JSONDecodeError
    end
  end.

End Json.

(* ------------------------------------------------------------------------- *)
(** ** The environment, the remote services and the trace *)

(** The module-level configuration, read from [os.environ]: the three
    credentials may be absent ([None]); the issue fields default to the empty
    string. *)
Record Env : Type := {
  GOOGLE_API_KEY : option str;
  SLACK_WEBHOOK_URL : option str;
  TAVILY_API_KEY : option str;
  ISSUE_TITLE : str;
  ISSUE_BODY : str;
  ISSUE_NUMBER : str;
  ISSUE_URL : str;
  ISSUE_AUTHOR : str;
  ASSIGNEE_USERNAME : str;
  REPO_NAME : str
}.

(** GitHub username -> Slack user id; the source's literal holds no entry. *)
Definition USER_MAPPING : list (str * str) := [].

(** A piece of an f-string: literal text, [str(v)] of a value, or [str(e)] of
    an exception.  The text of [str(v)] is not rendered. *)
Inductive piece : Type :=
| Lit (s : str)
| Fmt (v : pyval)
| FmtExn (e : exn).

Definition ftext := list piece.

(** The two prompts.  A prompt is the source's template filled with the values
    listed here; the template text itself is constant and left out.
    [body_shown] is [issue_body if issue_body else "(sem descrição)"];
    [suggestions] is what [json.dumps] is applied to. *)
Inductive prompt : Type :=
| AnalysisPrompt (issue_title body_shown : str)
| EnrichmentPrompt (issue_title : str) (research_query : pyval)
                   (search_results : str) (suggestions : pyval).

(** The blocks of a Slack message, by their ["type"]. *)
Inductive block : Type :=
| Header (text : ftext)
| SectionFields (fields : list ftext)
| SectionText (text : ftext)
| Divider
| Context (elements : list ftext).

Record slack_message : Type := { blocks : list block }.

(** [response.text] of a model response. *)
Inductive text_outcome : Type :=
| TextOk (t : str)
| TextRaises (msg : str).

(** [model.generate_content(prompt)] *)
Inductive gen_outcome : Type :=
| GenRaises (msg : str)
| GenReturns (text : text_outcome).

(** One result of the search service: the API's title / content pair. *)
Record search_hit : Type := { title : str; content : str }.

(** [TavilyClient(api_key=...).search(query=..., max_results=...)]: an
    exception, or the response with its ["results"] list when it has one. *)
Inductive search_outcome : Type :=
| SearchRaises (msg : str)
| SearchReturns (results : option (list search_hit)).

(** [requests.post(url, json=..., headers=...)] *)
Inductive post_outcome : Type :=
| PostRaises (msg : str)
| PostReturns (status_code : Z).

(** The remote services, as what each call answers. *)
Record World : Type := {
  generate_content : prompt -> gen_outcome;
  tavily_search : str -> pyval -> nat -> search_outcome;
  requests_post : str -> slack_message -> post_outcome
}.

(** What a run does outside the process: the three kinds of network call,
    each with what it sends, and the lines it prints. *)
Inductive event : Type :=
| EvGenerate (p : prompt)
| EvSearch (api_key : str) (query : pyval) (max_results : nat)
| EvPost (url : str) (message : slack_message)
| EvPrint (line : ftext).

(* ------------------------------------------------------------------------- *)
(** ** Computations *)

(** A run: what it returns or raises, and the events it produced. *)
Definition M (A : Type) : Type := (result A * list event)%type.

Definition ret {A} (a : A) : M A := (Ok a, []).

Definition raise {A} (e : exn) : M A := (Raise e, []).

Definition lift {A} (r : result A) : M A := (r, []).

Definition emit (ev : event) : M unit := (Ok tt, [ev]).

Definition bind {A B} (m : M A) (f : A -> M B) : M B :=
  match m with
  | (Ok a, tr) => let (r, tr') := f a in (r, tr ++ tr')
  | (Raise e, tr) => (Raise e, tr)
  end.

(** [try: body / except <catches> as e: handler e] *)
Definition try_except {A} (body : M A) (catches : exn -> bool)
           (handler : exn -> M A) : M A :=
  match body with
  | (Raise e, tr) =>
    if catches e then let (r, tr') := handler e in (r, tr ++ tr')
    else (Raise e, tr)
  | ok => ok
  end.

Declare Scope py_scope.
Delimit Scope py_scope with py.
Notation "x <- m ;; k" := (bind m (fun x => k))
  (at level 61, m at next level, right associativity) : py_scope.
Notation "m ;;; k" := (bind m (fun _ => k))
  (at level 61, right associativity) : py_scope.
Open Scope py_scope.

Definition bind_result {A B} (r : result A) (f : A -> result B) : result B :=
  match r with
  | Ok a => f a
  | Raise e => Raise e
  end.

(* ------------------------------------------------------------------------- *)
(** ** Operations on values *)

(** [v.get(k, default)]; only a [dict] has the method. *)
Definition py_get (v : pyval) (k : str) (default : pyval) : result pyval :=
  match v with
  | PDict d => Ok (dict_get_or d k default)
  | _ => Raise AttributeError
  end.

(** [v[k]] for a string key [k]. *)
Definition py_getitem (v : pyval) (k : str) : result pyval :=
  match v with
  | PDict d =>
    match dict_get d k with
    | Some x => Ok x
    | None => Raise (KeyError k)
    end
  | _ => Raise TypeError
  end.

(** [v[k] = x] for a string key [k]. *)
Definition py_setitem (v : pyval) (k : str) (x : pyval) : result pyval :=
  match v with
  | PDict d => Ok (PDict (dict_set d k x))
  | _ => Raise TypeError
  end.

(** [l[i]] for a non-negative constant [i]. *)
Definition list_index {A} (l : list A) (i : nat) : result A :=
  match nth_error l i with
  | Some x => Ok x
  | None => Raise IndexError
  end.

(** [l.insert(i, x)]: a negative index counts from the end, and an index
    outside the list is clipped to its ends. *)
Definition list_insert {A} (l : list A) (i : Z) (x : A) : list A :=
  let n := Z.of_nat (List.length l) in
  let pos := if (i <? 0)%Z then Z.max 0 (i + n) else Z.min i n in
  firstn (Z.to_nat pos) l ++ x :: skipn (Z.to_nat pos) l.

(** [for s in v]: the items a value yields, when it is iterable. *)
Definition py_iter (v : pyval) : result (list pyval) :=
  match v with
  | PList l => Ok l
  | PStr s => Ok (map (fun c => PStr [c]) s)
  | PDict d => Ok (map (fun kv => PStr (fst kv)) d)
  | _ => Raise TypeError
  end.

(** [table.get(k, default)] on a [dict] literal with string keys: the key is
    hashed first, and a [list] or a [dict] is unhashable. *)
Definition table_get (table : list (str * str)) (k : pyval) (default : str)
  : result str :=
  match k with
  | PList _ | PDict _ => Raise TypeError
  | PStr s =>
    Ok (match find (fun kv => PyStr.eqb (fst kv) s) table with
        | Some kv => snd kv
        | None => default
        end)
  | _ => Ok default
  end.

Definition nl : str := [10%N].

(* ------------------------------------------------------------------------- *)
(** ** [web_search] *)

Definition search_unavailable : str :=
  u "Web search não disponível (TAVILY_API_KEY não configurada)".

Definition search_no_results : str := u "Nenhum resultado encontrado".

(** [f"- {r['title']}: {r['content'][:200]}..."] *)
Definition format_hit (r : search_hit) : str :=
  u "- " ++ title r ++ u ": " ++ slice_to 200 (content r) ++ u "...".

(** [client.search(query=query, max_results=max_results)] on a client built
    with [api_key]. *)
Definition client_search (w : World) (api_key : str) (query : pyval)
           (max_results : nat) : M (option (list search_hit)) :=
  emit (EvSearch api_key query max_results) ;;;
  match tavily_search w api_key query max_results with
  | SearchRaises msg => raise (ServiceError msg)
  | SearchReturns r => ret r
  end.

(** [str(e)] in the handler of [web_search]; the body of its [try] raises
    nothing but what the search client raises. *)
Definition search_error_text (e : exn) : str :=
  match e with
  | ServiceError msg => msg
  | _ => []
  end.

(** The query is whatever [analysis["research_query"]] holds, so a [pyval]. *)
Definition web_search (env : Env) (w : World) (query : pyval) : M str :=
  match TAVILY_API_KEY env with
  | None | Some [] => ret search_unavailable
  | Some api_key =>
    try_except
      (response <- client_search w api_key query 3 ;;
       (* response.get("results", []) *)
       let hits := match response with Some l => l | None => [] end in
       let results := map format_hit hits in
       ret (match results with
            | [] => search_no_results
            | _ => join nl results
            end))
      (fun _ => true)
      (fun e => ret (u "Erro na pesquisa: " ++ search_error_text e))
  end.

(* ------------------------------------------------------------------------- *)
(** ** [analyze_with_gemini] *)

Definition fence : str := u "```".

(** Lines 105-108 (and 145-148): drop a leading code fence.
    [s] is the response text already stripped. *)
Definition strip_fence (s : str) : result str :=
  if startswith s fence then
    bind_result (list_index (split s fence) 1) (fun part =>
    Ok (if startswith part (u "json") then slice_from 4 part else part))
  else Ok s.

(** Lines 102-109: [response.text.strip()], the fence, [strip()] again. *)
Definition clean_response (text : str) : result str :=
  bind_result (strip_fence (strip text)) (fun t => Ok (strip t)).

(** Lines 115-122: the result used when the response is not JSON. *)
Definition fallback_fields (response_text : str) : dict :=
  [ (u "summary", PStr (slice_to 500 response_text));
    (u "classification", PStr (u "other"));
    (u "priority", PStr (u "medium"));
    (u "suggestions", PList [PStr (u "Revisar a issue manualmente")]);
    (u "needs_research", PBool false);
    (u "research_query", PNone) ].

Definition fallback (response_text : str) : pyval :=
  PDict (fallback_fields response_text).

(** Lines 75-99: the first prompt; an empty body is shown as a placeholder. *)
Definition analysis_prompt (issue_title issue_body : str) : prompt :=
  AnalysisPrompt issue_title
    (match issue_body with [] => u "(sem descrição)" | _ => issue_body end).

(** [model.generate_content(p)] *)
Definition model_generate (w : World) (p : prompt) : M text_outcome :=
  emit (EvGenerate p) ;;;
  match generate_content w p with
  | GenRaises msg => raise (ServiceError msg)
  | GenReturns r => ret r
  end.

(** [response.text] *)
Definition text_of (r : text_outcome) : M str :=
  match r with
  | TextOk t => ret t
  | TextRaises msg => raise (ValueError msg)
  end.

Definition is_JSONDecodeError (e : exn) : bool :=
  match e with JSONDecodeError => true | _ => false end.

(** Lines 125-152: the research stage, entered with the parsed [analysis]. *)
Definition research (env : Env) (w : World) (issue_title : str)
           (analysis : pyval) : M pyval :=
  query <- lift (py_getitem analysis (u "research_query")) ;;
  search_results <- web_search env w query ;;
  analysis <- lift (py_setitem analysis (u "search_results") (PStr search_results)) ;;
  (* the enrichment prompt reads analysis['research_query'] and
     json.dumps(analysis['suggestions']) *)
  shown_query <- lift (py_getitem analysis (u "research_query")) ;;
  original <- lift (py_getitem analysis (u "suggestions")) ;;
  enrichment_response <-
    model_generate w (EnrichmentPrompt issue_title shown_query search_results original) ;;
  try_except
    (enrichment_text <- text_of enrichment_response ;;
     enrichment_text <- lift (strip_fence (strip enrichment_text)) ;;
     enriched <- lift (Json.loads (strip enrichment_text)) ;;
     (* enriched.get("suggestions", analysis["suggestions"]): the method is
        looked up before its arguments are evaluated *)
     _ <- lift (py_get enriched (u "suggestions") PNone) ;;
     default <- lift (py_getitem analysis (u "suggestions")) ;;
     updated <- lift (py_get enriched (u "suggestions") default) ;;
     lift (py_setitem analysis (u "suggestions") updated))
    (fun _ => true)
    (fun _ => ret analysis).

Definition analyze_with_gemini (env : Env) (w : World)
           (issue_title issue_body : str) : M pyval :=
  response <- model_generate w (analysis_prompt issue_title issue_body) ;;
  text <- text_of response ;;
  response_text <- lift (clean_response text) ;;
  analysis <-
    try_except (lift (Json.loads response_text))
               is_JSONDecodeError
               (fun _ => ret (fallback response_text)) ;;
  (* analysis.get("needs_research") and analysis.get("research_query") *)
  needs_research <- lift (py_get analysis (u "needs_research") PNone) ;;
  wanted <-
    (if truthy needs_research
     then research_query <- lift (py_get analysis (u "research_query") PNone) ;;
          ret (truthy research_query)
     else ret false) ;;
  if wanted then research env w issue_title analysis else ret analysis.

(* ------------------------------------------------------------------------- *)
(** ** [send_to_slack] *)

Definition class_emoji : list (str * str) :=
  [ (u "bug", u ":bug:");
    (u "feature", u ":sparkles:");
    (u "question", u ":question:");
    (u "documentation", u ":books:");
    (u "other", u ":memo:") ].

Definition priority_emoji : list (str * str) :=
  [ (u "low", u ":white_circle:");
    (u "medium", u ":large_yellow_circle:");
    (u "high", u ":large_orange_circle:");
    (u "critical", u ":red_circle:") ].

(** Lines 184-185: the mention of the assignee. *)
Definition mention (env : Env) : str :=
  match find (fun kv => PyStr.eqb (fst kv) (ASSIGNEE_USERNAME env)) USER_MAPPING with
  | Some (_, (_ :: _) as slack_user_id) => u "<@" ++ slack_user_id ++ u ">"
  | _ => u "@" ++ ASSIGNEE_USERNAME env
  end.

(** ["\n".join([f"• {s}" for s in items])] *)
Fixpoint suggestions_text (items : list pyval) : ftext :=
  match items with
  | [] => []
  | [s] => [Lit (u "• "); Fmt s]
  | s :: rest => Lit (u "• ") :: Fmt s :: Lit nl :: suggestions_text rest
  end.

(** The block added when a web search was made (lines 253-261). *)
Definition research_note : block :=
  Context [[Lit (u "🔍 _Pesquisa web realizada para complementar a análise_")]].

(** The last block of the message (lines 239-247). *)
Definition footer (env : Env) : block :=
  Context [[Lit (u "Criada por: "); Lit (ISSUE_AUTHOR env);
            Lit (u " | Análise por: Gemini 2.0 Flash")]].

(** Lines 180-249: the blocks of the message as first built. *)
Definition base_message (env : Env) (analysis : pyval) : result (list block) :=
  bind_result (py_get analysis (u "classification") (PStr (u "other"))) (fun classification =>
  bind_result (py_get analysis (u "priority") (PStr (u "medium"))) (fun priority =>
  bind_result (py_get analysis (u "suggestions") (PList [])) (fun suggestions =>
  bind_result (py_iter suggestions) (fun items =>
  bind_result (table_get class_emoji classification (u ":memo:")) (fun cemoji =>
  bind_result (table_get priority_emoji priority (u ":white_circle:")) (fun pemoji =>
  bind_result (py_get analysis (u "summary") (PStr (u "N/A"))) (fun summary =>
  Ok [ Header [Lit (u "📋 Nova Issue #"); Lit (ISSUE_NUMBER env)];
       SectionFields
         [ [Lit (u "*Repositório:*"); Lit nl; Lit (REPO_NAME env)];
           [Lit (u "*Atribuída para:*"); Lit nl; Lit (mention env)] ];
       SectionFields
         [ [Lit (u "*Tipo:*"); Lit nl; Lit cemoji; Lit (u " "); Fmt classification];
           [Lit (u "*Prioridade:*"); Lit nl; Lit pemoji; Lit (u " "); Fmt priority] ];
       SectionText [Lit (u "*Título:*"); Lit nl; Lit (u "<"); Lit (ISSUE_URL env);
                    Lit (u "|"); Lit (ISSUE_TITLE env); Lit (u ">")];
       SectionText [Lit (u "*📝 Resumo da IA:*"); Lit nl; Fmt summary];
       SectionText (Lit (u "*💡 Sugestões:*") :: Lit nl :: suggestions_text items);
       Divider;
       footer env ]))))))).

(** Lines 180-261: the message that is sent; the note on the web search goes
    in with [slack_message["blocks"].insert(-1, ...)]. *)
Definition build_message (env : Env) (analysis : pyval) : result slack_message :=
  bind_result (base_message env analysis) (fun message =>
  bind_result (py_get analysis (u "search_results") PNone) (fun search_results =>
  Ok {| blocks :=
          if truthy search_results
          then list_insert message (-1) research_note
          else message |})).

(** [requests.post(url, json=message, headers=...)] *)
Definition post (w : World) (url : str) (message : slack_message) : M Z :=
  emit (EvPost url message) ;;;
  match requests_post w url message with
  | PostRaises msg => raise (RequestException msg)
  | PostReturns status_code => ret status_code
  end.

(** [response.raise_for_status()]: a 4xx or 5xx status raises [HTTPError]. *)
Definition raise_for_status (status_code : Z) : M unit :=
  if ((400 <=? status_code) && (status_code <? 600))%Z
  then raise (HTTPError status_code)
  else ret tt.

(** [except requests.exceptions.RequestException] *)
Definition is_RequestException (e : exn) : bool :=
  match e with
  | RequestException _ | HTTPError _ => true
  | _ => false
  end.

Definition print (line : ftext) : M unit := emit (EvPrint line).

Definition send_to_slack (env : Env) (w : World) (analysis : pyval) : M bool :=
  match SLACK_WEBHOOK_URL env with
  | None | Some [] =>
    print [Lit (u "SLACK_WEBHOOK_URL não configurada - pulando envio")] ;;;
    ret false
  | Some url =>
    slack_message <- lift (build_message env analysis) ;;
    try_except
      (status_code <- post w url slack_message ;;
       raise_for_status status_code ;;;
       print [Lit (u "Mensagem enviada para Slack com sucesso!")] ;;;
       ret true)
      is_RequestException
      (fun e =>
         print [Lit (u "Erro ao enviar para Slack: "); FmtExn e] ;;;
         ret false)
  end.

(* ------------------------------------------------------------------------- *)
(** ** [main] *)

(** Lines 282-305.  The value of a run is the status the process ends with
    when [main] gets to its end ([0]) or calls [exit] (the status given);
    nothing in [main] catches an exception, so one that the Analyzer or the
    Notifier raises is what the run raises. *)
Definition main (env : Env) (w : World) : M Z :=
  print [Lit (u "🔍 Analisando issue #"); Lit (ISSUE_NUMBER env);
         Lit (u ": "); Lit (ISSUE_TITLE env)] ;;;
  print [Lit (u "👤 Atribuída para: "); Lit (ASSIGNEE_USERNAME env)] ;;;
  match GOOGLE_API_KEY env with
  | None | Some [] =>
    print [Lit (u "❌ GOOGLE_API_KEY não configurada!")] ;;;
    (* exit(1) *)
    ret 1%Z
  | Some _ =>
    print [Lit (u "🤖 Enviando para análise do Gemini...")] ;;;
    analysis <- analyze_with_gemini env w (ISSUE_TITLE env) (ISSUE_BODY env) ;;
    classification <- lift (py_get analysis (u "classification") PNone) ;;
    print [Lit (u "📊 Classificação: "); Fmt classification] ;;;
    priority <- lift (py_get analysis (u "priority") PNone) ;;
    print [Lit (u "🎯 Prioridade: "); Fmt priority] ;;;
    summary <- lift (py_get analysis (u "summary") PNone) ;;
    print [Lit (u "📝 Resumo: "); Fmt summary] ;;;
    needs_research <- lift (py_get analysis (u "needs_research") PNone) ;;
    (if truthy needs_research
     then research_query <- lift (py_get analysis (u "research_query") PNone) ;;
          print [Lit (u "🔍 Pesquisa web realizada: "); Fmt research_query]
     else ret tt) ;;;
    print [Lit (u "📤 Enviando para Slack...")] ;;;
    _ <- send_to_slack env w analysis ;;
    print [Lit (u "✅ Análise concluída!")] ;;;
    ret 0%Z
  end.

(* ------------------------------------------------------------------------- *)
(** ** Notions used in the statements *)

(** The text [json.loads] is applied to (lines 102-109); [clean_response]
    never raises, see [clean_response_ok]. *)
Definition cleaned (text : str) : str :=
  match clean_response text with
  | Ok t => t
  | Raise _ => []
  end.

(** The analysis after lines 111-122: the parsed response, or the fallback. *)
Definition parsed_or_fallback (text : str) : pyval :=
  match Json.loads (cleaned text) with
  | Ok v => v
  | Raise _ => fallback (cleaned text)
  end.

(** Line 125: [analysis.get("needs_research") and analysis.get("research_query")]. *)
Definition wants_research (d : dict) : bool :=
  truthy (dict_get_or d (u "needs_research") PNone)
  && truthy (dict_get_or d (u "research_query") PNone).

(** Lines 143-152 as a function: the analysis [d] after the enrichment
    response [r], [original] being [analysis["suggestions"]]. *)
Definition enrich (d : dict) (original : pyval) (r : text_outcome) : dict :=
  match r with
  | TextOk t =>
    match Json.loads (cleaned t) with
    | Ok (PDict e) =>
      dict_set d (u "suggestions") (dict_get_or e (u "suggestions") original)
    | _ => d
    end
  | TextRaises _ => d
  end.


Definition has_key (d : dict) (k : str) : bool :=
  match dict_get d k with
  | Some _ => true
  | None => false
  end.



(** Line 252: [analysis.get("search_results")] is truthy. *)
Definition research_attached (analysis : pyval) : bool :=
  match py_get analysis (u "search_results") PNone with
  | Ok v => truthy v
  | Raise _ => false
  end.

(** The ["type"] of a block. *)
Definition block_type (b : block) : str :=
  match b with
  | Header _ => u "header"
  | SectionFields _ | SectionText _ => u "section"
  | Divider => u "divider"
  | Context _ => u "context"
  end.

(** The message of a successful [build_message]. *)
Definition message_of (r : result slack_message) : slack_message :=
  match r with
  | Ok m => m
  | Raise _ => {| blocks := [] |}
  end.

(** The blocks of a successful [base_message]. *)
Definition blocks_of (env : Env) (analysis : pyval) : list block :=
  match base_message env analysis with
  | Ok l => l
  | Raise _ => []
  end.

(** The wrapping the third property speaks of: a response text [t] between
    code-fence markers, the opening one bare ([lang] empty) or followed by a
    language tag, each marker on a line of its own. *)
Definition wrap_fence (lang t : str) : str :=
  fence ++ lang ++ nl ++ t ++ nl ++ fence.

(** A world that answers the analysis prompt with the text [t] and is [w]
    otherwise. *)
Definition answering (w : World) (t : str) : World :=
  {| generate_content := fun p =>
       match p with
       | AnalysisPrompt _ _ => GenReturns (TextOk t)
       | _ => generate_content w p
       end;
     tavily_search := tavily_search w;
     requests_post := requests_post w |}.

(** The status the process ends with: an exception nothing catches ends it
    with status 1. *)
Definition exit_status (r : result Z) : Z :=
  match r with
  | Ok status => status
  | Raise _ => 1%Z
  end.

(** The events of a trace by kind, and how many of a kind a trace holds. *)
Definition is_generate (ev : event) : bool :=
  match ev with EvGenerate _ => true | _ => false end.

Definition is_search (ev : event) : bool :=
  match ev with EvSearch _ _ _ => true | _ => false end.

Definition is_post (ev : event) : bool :=
  match ev with EvPost _ _ => true | _ => false end.

Definition is_print (ev : event) : bool :=
  match ev with EvPrint _ => true | _ => false end.

Definition count (kind : event -> bool) (tr : list event) : nat :=
  List.length (filter kind tr).

(** What [generate_content(p).text] raises, when the call or the attribute
    does. *)
Definition model_failure (g : gen_outcome) : option exn :=
  match g with
  | GenRaises msg => Some (ServiceError msg)
  | GenReturns (TextRaises msg) => Some (ValueError msg)
  | GenReturns (TextOk _) => None
  end.

(** The object the enrichment answer parses to, when it has a text that
    parses to one (lines 143-149). *)
Definition enrichment_object (r : text_outcome) : option dict :=
  match r with
  | TextOk t =>
    match Json.loads (cleaned t) with
    | Ok (PDict e) => Some e
    | _ => None
    end
  | TextRaises _ => None
  end.

(** A value a [for] loop accepts, and a value a [dict] accepts as a key. *)
Definition iterable (v : pyval) : bool :=
  match v with
  | PStr _ | PList _ | PDict _ => true
  | _ => false
  end.

Definition hashable (v : pyval) : bool :=
  match v with
  | PList _ | PDict _ => false
  | _ => true
  end.

(** The pieces of a text that open a bullet. *)
Definition is_bullet (p : piece) : bool :=
  match p with
  | Lit s => PyStr.eqb s (u "• ")
  | _ => false
  end.

(** The lines [main] prints before it calls the Analyzer (lines 283-291). *)
Definition opening_lines (env : Env) : list event :=
  [ EvPrint [Lit (u "🔍 Analisando issue #"); Lit (ISSUE_NUMBER env);
             Lit (u ": "); Lit (ISSUE_TITLE env)];
    EvPrint [Lit (u "👤 Atribuída para: "); Lit (ASSIGNEE_USERNAME env)];
    EvPrint [Lit (u "🤖 Enviando para análise do Gemini...")] ].

(** The lines [main] prints about the analysis [d] (lines 294-299). *)
Definition report_lines (d : dict) : list event :=
  [ EvPrint [Lit (u "📊 Classificação: "); Fmt (dict_get_or d (u "classification") PNone)];
    EvPrint [Lit (u "🎯 Prioridade: "); Fmt (dict_get_or d (u "priority") PNone)];
    EvPrint [Lit (u "📝 Resumo: "); Fmt (dict_get_or d (u "summary") PNone)] ]
  ++ (if truthy (dict_get_or d (u "needs_research") PNone)
      then [EvPrint [Lit (u "🔍 Pesquisa web realizada: ");
                     Fmt (dict_get_or d (u "research_query") PNone)]]
      else []).

(* ------------------------------------------------------------------------- *)
(** ** Sample inputs *)

(** A JSON text written with ['] where it has the double quote. *)
Definition json_text (text : string) : str :=
  map (fun c => if (c =? 39)%N then 34%N else c) (utf8 text).

Notation "'js' s" :=
  (ltac:(let v := eval vm_compute in (json_text s%string) in exact v))
  (at level 1, s at level 0, only parsing).

Definition sample_env : Env :=
  {| GOOGLE_API_KEY := Some (u "g-key");
     SLACK_WEBHOOK_URL := Some (u "https://hooks.slack.example/T0");
     TAVILY_API_KEY := Some (u "t-key");
     ISSUE_TITLE := u "Crash on startup";
     ISSUE_BODY := [];
     ISSUE_NUMBER := u "7";
     ISSUE_URL := u "https://github.example/r/issues/7";
     ISSUE_AUTHOR := u "ann";
     ASSIGNEE_USERNAME := u "bob";
     REPO_NAME := u "org/r" |}.

(** The same process without the two optional credentials. *)
Definition bare_env : Env :=
  {| GOOGLE_API_KEY := Some (u "g-key");
     SLACK_WEBHOOK_URL := None;
     TAVILY_API_KEY := None;
     ISSUE_TITLE := u "Crash on startup";
     ISSUE_BODY := [];
     ISSUE_NUMBER := u "7";
     ISSUE_URL := u "https://github.example/r/issues/7";
     ISSUE_AUTHOR := u "ann";
     ASSIGNEE_USERNAME := u "bob";
     REPO_NAME := u "org/r" |}.

(** A world whose model answers the analysis prompt with [first] and an
    enrichment prompt with [second], whose search and webhook behave as given. *)
Definition sample_world (first second : str) (search : search_outcome)
           (posted : post_outcome) : World :=
  {| generate_content := fun p =>
       match p with
       | AnalysisPrompt _ _ => GenReturns (TextOk first)
       | EnrichmentPrompt _ _ _ _ => GenReturns (TextOk second)
       end;
     tavily_search := fun _ _ _ => search;
     requests_post := fun _ _ => posted |}.

Definition two_hits : search_outcome :=
  SearchReturns (Some [ {| title := u "Release notes"; content := u "Fixed in 2.1" |};
                        {| title := u "Forum"; content := u "Try a clean install" |} ]).

Definition text_garbage : str := u "Sorry, I cannot analyse this issue.".

Definition text_list : str := u "[]".


Definition text_complete : str :=
  js "{'summary': 'App crashes', 'classification': 'bug', 'priority': 'high', 'suggestions': ['Check logs', 'Bisect'], 'needs_research': false, 'research_query': null}".


Definition text_research : str :=
  js "{'summary': 'App crashes', 'classification': 'bug', 'priority': 'high', 'suggestions': ['Check logs'], 'needs_research': true, 'research_query': 'crash 2.0'}".

Definition text_research_no_query : str :=
  js "{'summary': 'App crashes', 'classification': 'bug', 'priority': 'high', 'suggestions': ['Check logs'], 'needs_research': true, 'research_query': null}".

Definition text_research_no_suggestions : str :=
  js "{'needs_research': true, 'research_query': 'crash 2.0'}".

Definition text_inner_fence : str := js "{'summary': 'run ```make``` first'}".

Definition text_enriched : str := js "{'suggestions': ['Upgrade to 2.1']}".


(** The objects some of these texts stand for. *)
Definition fields_complete : dict :=
  [ (u "summary", PStr (u "App crashes"));
    (u "classification", PStr (u "bug"));
    (u "priority", PStr (u "high"));
    (u "suggestions", PList [PStr (u "Check logs"); PStr (u "Bisect")]);
    (u "needs_research", PBool false);
    (u "research_query", PNone) ].

Definition fields_research : dict :=
  [ (u "summary", PStr (u "App crashes"));
    (u "classification", PStr (u "bug"));
    (u "priority", PStr (u "high"));
    (u "suggestions", PList [PStr (u "Check logs")]);
    (u "needs_research", PBool true);
    (u "research_query", PStr (u "crash 2.0")) ].

Definition fields_research_no_query : dict :=
  [ (u "summary", PStr (u "App crashes"));
    (u "classification", PStr (u "bug"));
    (u "priority", PStr (u "high"));
    (u "suggestions", PList [PStr (u "Check logs")]);
    (u "needs_research", PBool true);
    (u "research_query", PNone) ].

(** What [web_search] makes of [two_hits]. *)
Definition two_hits_text : str :=
  u "- Release notes: Fixed in 2.1..." ++ nl ++ u "- Forum: Try a clean install...".

(** [fields_research] after the research stage, the second answer being
    [text_enriched]. *)
Definition fields_enriched : dict :=
  [ (u "summary", PStr (u "App crashes"));
    (u "classification", PStr (u "bug"));
    (u "priority", PStr (u "high"));
    (u "suggestions", PList [PStr (u "Upgrade to 2.1")]);
    (u "needs_research", PBool true);
    (u "research_query", PStr (u "crash 2.0"));
    (u "search_results", PStr two_hits_text) ].

(** A process without the model credential: the variable is set, but empty. *)
Definition keyless_env : Env :=
  {| GOOGLE_API_KEY := Some [];
     SLACK_WEBHOOK_URL := Some (u "https://hooks.slack.example/T0");
     TAVILY_API_KEY := Some (u "t-key");
     ISSUE_TITLE := u "Crash on startup";
     ISSUE_BODY := [];
     ISSUE_NUMBER := u "7";
     ISSUE_URL := u "https://github.example/r/issues/7";
     ISSUE_AUTHOR := u "ann";
     ASSIGNEE_USERNAME := u "bob";
     REPO_NAME := u "org/r" |}.

(** A world whose model answers the analysis prompt with [first] and does
    to an enrichment prompt what [second] says. *)
Definition failing_world (first : str) (second : gen_outcome)
           (search : search_outcome) (posted : post_outcome) : World :=
  {| generate_content := fun p =>
       match p with
       | AnalysisPrompt _ _ => GenReturns (TextOk first)
       | EnrichmentPrompt _ _ _ _ => second
       end;
     tavily_search := fun _ _ _ => search;
     requests_post := fun _ _ => posted |}.

(** A world whose model does on every prompt what [g] says. *)
Definition silent_world (g : gen_outcome) : World :=
  {| generate_content := fun _ => g;
     tavily_search := fun _ _ _ => two_hits;
     requests_post := fun _ _ => PostReturns 200 |}.

(* ------------------------------------------------------------------------- *)
(** ** Proof tools *)

(** Unfolds the operations on computations. *)
Ltac run_py :=
  unfold bind, lift, ret, raise, emit, try_except; cbn [fst snd app].

(** A closed statement, or a conjunction of them, settled by evaluation. *)
Ltac by_computation :=
  repeat match goal with |- _ /\ _ => split end; vm_compute; reflexivity.

(* ========================================================================= *)
(** * Properties *)

(* ------------------------------------------------------------------------- *)
(** ** [json.loads] on sample texts *)

Example loads_object :
  Json.loads (js "{'a': [1, -2.50, 3e2, true, false, null], 'b': {}, 'a': 'x'}")
  = Ok (PDict [(u "a", PStr (u "x")); (u "b", PDict [])]).
Proof. by_computation. Qed.

Example loads_numbers :
  Json.loads (u " [0, -0, 12, 1.5, -0.0, 1E+2, NaN, Infinity, -Infinity] ")
  = Ok (PList [ PInt 0; PInt 0; PInt 12; PFloat (FDec false 15 (-1));
                PFloat (FDec true 0 (-1)); PFloat (FDec false 1 2);
                PFloat FNaN; PFloat (FInf false); PFloat (FInf true) ]).
Proof. by_computation. Qed.

Example loads_escapes :
  Json.loads (js "'café \n 😀 \/'")
  = Ok (PStr [99; 97; 102; 233; 32; 10; 32; 128512; 32; 47]%N).
Proof. by_computation. Qed.

Example loads_scalars :
  Json.loads (u "null") = Ok PNone
  /\ Json.loads (js "'text'") = Ok (PStr (u "text"))
  /\ Json.loads (u "[]") = Ok (PList []).
Proof. by_computation. Qed.

Example loads_rejects :
  map Json.loads
      [ u ""; u "garbage"; u "[1,]"; js "{'a': 1,}"; js "{'a' 1}"; u "{1: 2}";
        u "01"; u "1."; u ".5"; u "1e"; u "-"; u "[1 2]"; u "[1]]"; u "[[1]";
        js "'open"; js "'bad \q escape'"; u "nul"; u "truefalse"; u "{} x" ]
  = repeat (Raise JSONDecodeError) 19.
Proof. by_computation. Qed.

(** [1e-400] is read as the double [0.0]. *)
Example truthy_values :
  map truthy [ PNone; PBool false; PInt 0; PFloat (FDec true 0 (-1));
               PFloat (FDec false 1 (-400)); PStr []; PList []; PDict [] ]
  = repeat false 8
  /\ map truthy [ PBool true; PInt (-1); PFloat (FDec false 1 (-300)); PFloat FNaN;
                  PStr (u "no"); PList [PNone]; PDict [(u "k", PNone)] ]
     = repeat true 7.
Proof. by_computation. Qed.

Example python_string_operations :
  split (u "a```b````c") (u "```") = [u "a"; u "b"; u "`c"]
  /\ strip (nl ++ u "  x y " ++ [160%N; 9%N]) = u "x y"
  /\ startswith (u "json{}") (u "json") = true
  /\ slice_from 4 (u "json{}") = u "{}"
  /\ join nl [u "a"; u "b"] = u "a" ++ nl ++ u "b".
Proof. by_computation. Qed.

(* ------------------------------------------------------------------------- *)
(** ** Facts about strings *)

Section StringFacts.

Lemma eqb_refl (a : str) : PyStr.eqb a a = true.
Proof.
  induction a as [|x a IH]; simpl; [reflexivity|].
  now rewrite N.eqb_refl, IH.
Qed.

Lemma eqb_eq (a b : str) : PyStr.eqb a b = true <-> a = b.
Proof.
  split.
  - revert b; induction a as [|x a IH]; intros [|y b]; simpl; try discriminate; auto.
    intros H. apply andb_true_iff in H as [Hx Hab].
    apply N.eqb_eq in Hx. f_equal; auto.
  - intros ->. apply eqb_refl.
Qed.

Lemma startswith_app (p s : str) : startswith (p ++ s) p = true.
Proof.
  induction p as [|c p IH]; simpl; [reflexivity|].
  now rewrite N.eqb_refl, IH.
Qed.

Lemma startswith_self (p : str) : startswith p p = true.
Proof. rewrite <- (app_nil_r p) at 1. apply startswith_app. Qed.

Lemma startswith_inv (s p : str) :
  startswith s p = true -> exists rest, s = p ++ rest.
Proof.
  revert s; induction p as [|c p IH]; intros s H.
  - now exists s.
  - destruct s as [|d s]; simpl in H; [discriminate|].
    apply andb_true_iff in H as [Hc Hs].
    apply N.eqb_eq in Hc. subst d.
    destruct (IH _ Hs) as [rest ->]. now exists rest.
Qed.

Lemma contains_app (a p b : str) : contains (a ++ p ++ b) p = true.
Proof.
  induction a as [|c a IH]; simpl.
  - destruct p as [|c p]; simpl.
    + destruct b; reflexivity.
    + rewrite N.eqb_refl, startswith_app. reflexivity.
  - rewrite IH. apply orb_true_r.
Qed.

(** What [lstrip] removes is white space, and what it leaves starts with a
    character that is not. *)
Lemma lstrip_split (s : str) :
  exists ws, s = ws ++ lstrip s /\ forallb isspace ws = true.
Proof.
  induction s as [|c s (ws & E & Hws)]; simpl.
  - now exists [].
  - destruct (isspace c) eqn:Hc.
    + exists (c :: ws). simpl. rewrite Hc, Hws. split; [now f_equal|reflexivity].
    + now exists [].
Qed.

Lemma lstrip_head (s : str) (c : char) (r : str) :
  lstrip s = c :: r -> isspace c = false.
Proof.
  induction s as [|d s IH]; simpl; [discriminate|].
  destruct (isspace d) eqn:Hd; auto.
  intros [= -> ->]. exact Hd.
Qed.

Lemma lstrip_fixed (c : char) (s : str) :
  isspace c = false -> lstrip (c :: s) = c :: s.
Proof. intros H. simpl. now rewrite H. Qed.

Lemma lstrip_idem (s : str) : lstrip (lstrip s) = lstrip s.
Proof.
  destruct (lstrip s) as [|c r] eqn:E; [reflexivity|].
  apply lstrip_fixed. eapply lstrip_head; eauto.
Qed.

Lemma lstrip_app_space (s : str) (c : char) :
  isspace c = true ->
  lstrip (s ++ [c]) = match lstrip s with [] => [] | r => r ++ [c] end.
Proof.
  intros Hc. induction s as [|d s IH]; simpl.
  - now rewrite Hc.
  - destruct (isspace d); [exact IH|reflexivity].
Qed.

Lemma rstrip_split (s : str) :
  exists ws, s = rstrip s ++ ws /\ forallb isspace ws = true.
Proof.
  unfold rstrip. destruct (lstrip_split (rev s)) as (ws & E & Hws).
  exists (rev ws). split.
  - rewrite <- rev_app_distr, <- E. now rewrite rev_involutive.
  - rewrite forallb_forall in *. intros x Hx. apply Hws. now apply in_rev.
Qed.

Lemma rstrip_app_space (s : str) (c : char) :
  isspace c = true -> rstrip (s ++ [c]) = rstrip s.
Proof.
  intros Hc. unfold rstrip. rewrite rev_app_distr. simpl. now rewrite Hc.
Qed.

Lemma rstrip_idem (s : str) : rstrip (rstrip s) = rstrip s.
Proof. unfold rstrip. now rewrite rev_involutive, lstrip_idem. Qed.

(** [rstrip] keeps the first character of a text that starts with one that is
    not white space. *)
Lemma rstrip_keeps_head (c : char) (s : str) :
  isspace c = false -> exists r, rstrip (c :: s) = c :: r.
Proof.
  intros Hc. destruct (rstrip_split (c :: s)) as (ws & E & Hws).
  destruct (rstrip (c :: s)) as [|d r] eqn:R.
  - simpl in E. subst ws. simpl in Hws. rewrite Hc in Hws. discriminate.
  - simpl in E. injection E as -> _. now exists r.
Qed.

Lemma lstrip_strip (s : str) : lstrip (strip s) = strip s.
Proof.
  unfold strip. destruct (lstrip s) as [|c r] eqn:E; [reflexivity|].
  pose proof (lstrip_head _ _ _ E) as Hc.
  destruct (rstrip_keeps_head c r Hc) as [r' ->]. now apply lstrip_fixed.
Qed.

Lemma strip_idem (s : str) : strip (strip s) = strip s.
Proof.
  unfold strip at 1. rewrite lstrip_strip. unfold strip. apply rstrip_idem.
Qed.

(** A text placed between two white-space characters strips to the same. *)
Lemma strip_padded (a b : char) (s : str) :
  isspace a = true -> isspace b = true -> strip (a :: s ++ [b]) = strip s.
Proof.
  intros Ha Hb. unfold strip. simpl. rewrite Ha.
  rewrite (lstrip_app_space s b Hb).
  destruct (lstrip s) as [|c r]; [reflexivity|].
  change (rstrip ((c :: r) ++ [b]) = rstrip (c :: r)).
  now apply rstrip_app_space.
Qed.

(** [strip] returns a piece of its argument. *)
Lemma strip_split (s : str) : exists a b, s = a ++ strip s ++ b.
Proof.
  destruct (lstrip_split s) as (a & Ea & _).
  destruct (rstrip_split (lstrip s)) as (b & Eb & _).
  exists a, b. unfold strip. now rewrite <- Eb.
Qed.

(** A text that starts and ends with a character that is not white space is
    its own [strip]. *)
Lemma strip_fixed (c d : char) (s : str) :
  isspace c = false -> isspace d = false ->
  strip (c :: s ++ [d]) = c :: s ++ [d].
Proof.
  intros Hc Hd. unfold strip. rewrite (lstrip_fixed c _ Hc).
  unfold rstrip.
  assert (E : rev (c :: s ++ [d]) = d :: rev (c :: s))
    by (rewrite app_comm_cons, rev_app_distr; reflexivity).
  rewrite E, (lstrip_fixed d _ Hd).
  change (rev (d :: rev (c :: s))) with (rev (rev (c :: s)) ++ [d]).
  now rewrite rev_involutive.
Qed.

Lemma split_from_nonempty (sep : str) (s : str) :
  forall k cur, exists x l, split_from sep k cur s = x :: l.
Proof.
  induction s as [|c s IH]; intros k cur; simpl; eauto.
  destruct k; auto.
  destruct (startswith (c :: s) sep); eauto.
Qed.

End StringFacts.

Section SplitFacts.

Lemma split_from_skip_all (sep l cur : str) :
  split_from sep (List.length l) cur l = [rev cur].
Proof. induction l as [|c l IH]; simpl; auto. Qed.

Lemma split_from_skip (sep l cur rest : str) :
  split_from sep (List.length l) cur (l ++ rest) = split_from sep 0 cur rest.
Proof. induction l as [|c l IH]; simpl; auto. Qed.

(** A text that starts with the separator: the first piece ends there. *)
Lemma split_from_leading_sep (sep cur rest : str) :
  sep <> [] ->
  split_from sep 0 cur (sep ++ rest) = rev cur :: split_from sep 0 [] rest.
Proof.
  destruct sep as [|c sep']; [congruence|]. intros _.
  rewrite <- app_comm_cons. cbn [split_from].
  rewrite app_comm_cons, startswith_app.
  replace (List.length (c :: sep') - 1) with (List.length sep')
    by (cbn [List.length]; lia).
  now rewrite split_from_skip.
Qed.

Lemma split_from_sep_alone (sep cur : str) :
  sep <> [] -> split_from sep 0 cur sep = [rev cur; []].
Proof.
  destruct sep as [|c sep']; [congruence|]. intros _.
  cbn [split_from]. rewrite startswith_self.
  replace (List.length (c :: sep') - 1) with (List.length sep')
    by (cbn [List.length]; lia).
  now rewrite split_from_skip_all.
Qed.

Lemma split_until_closing (sep s : str) :
  sep <> [] ->
  free_before_end sep s = true ->
  forall cur, split_from sep 0 cur (s ++ sep) = [rev cur ++ s; []].
Proof.
  intros Hsep. induction s as [|c s IH]; intros H cur.
  - rewrite app_nil_r. now apply split_from_sep_alone.
  - cbn [free_before_end] in H. apply andb_true_iff in H as [Hc Hs].
    apply negb_true_iff in Hc.
    rewrite <- app_comm_cons in *.
    cbn [split_from]. rewrite Hc, (IH Hs). cbn [rev].
    now rewrite <- app_assoc.
Qed.

End SplitFacts.


Section FenceFacts.

Lemma fence_free_newline_end (s : str) :
  contains s fence = false -> free_before_end fence (s ++ nl) = true.
Proof.
  induction s as [|c s IH]; intros H; [reflexivity|].
  cbn [contains] in H. apply orb_false_iff in H as [Hc Hs].
  cbn [app free_before_end]. rewrite (IH Hs), andb_true_r.
  apply negb_true_iff.
  destruct s as [|c1 [|c2 s]]; cbn in Hc |- *;
    repeat (destruct (_ =? 96)%N; cbn in Hc |- *; try reflexivity; try discriminate).
Qed.

(** The fence step never fails: a text that starts with a fence splits into at
    least two pieces. *)
Lemma strip_fence_ok (s : str) : exists r, strip_fence s = Ok r.
Proof.
  unfold strip_fence. destruct (startswith s fence) eqn:H; [|eauto].
  destruct s as [|c s]; [discriminate|].
  unfold split. cbn [split_from]. rewrite H.
  destruct (split_from_nonempty fence s (List.length fence - 1) []) as (x & l & ->).
  cbn. eauto.
Qed.

Lemma clean_response_ok (text : str) : clean_response text = Ok (cleaned text).
Proof.
  unfold cleaned, clean_response.
  destruct (strip_fence_ok (strip text)) as [r ->]. reflexivity.
Qed.

(** A text without a fence in it is only stripped. *)
Lemma clean_response_plain (t : str) :
  contains t fence = false -> clean_response t = Ok (strip t).
Proof.
  intros H. unfold clean_response, strip_fence.
  destruct (startswith (strip t) fence) eqn:S.
  - apply startswith_inv in S as [rest E].
    destruct (strip_split t) as (a & b & Et).
    rewrite E in Et. rewrite Et, <- app_assoc, contains_app in H. discriminate.
  - cbn [bind_result]. now rewrite strip_idem.
Qed.

Lemma wrap_fence_split (lang t : str) :
  free_before_end fence (lang ++ nl ++ t ++ nl) = true ->
  split (wrap_fence lang t) fence = [[]; lang ++ nl ++ t ++ nl; []].
Proof.
  intros H. unfold split, wrap_fence.
  replace (fence ++ lang ++ nl ++ t ++ nl ++ fence)
    with (fence ++ (lang ++ nl ++ t ++ nl) ++ fence)
    by (now rewrite <- !app_assoc).
  rewrite split_from_leading_sep by discriminate.
  rewrite split_until_closing; [reflexivity|discriminate|exact H].
Qed.

Lemma wrap_fence_strip (lang t : str) :
  strip (wrap_fence lang t) = wrap_fence lang t.
Proof.
  unfold wrap_fence.
  replace (fence ++ lang ++ nl ++ t ++ nl ++ fence)
    with (96%N :: ([96%N; 96%N] ++ lang ++ nl ++ t ++ nl ++ [96%N; 96%N]) ++ [96%N]).
  - now apply strip_fixed.
  - rewrite <- !app_assoc. reflexivity.
Qed.

(** What the fence step makes of a wrapped text that holds no fence itself. *)
Lemma clean_response_wrapped (lang t : str) :
  lang = [] \/ lang = u "json" ->
  contains t fence = false ->
  clean_response (wrap_fence lang t) = Ok (strip t).
Proof.
  intros Hlang H. unfold clean_response.
  rewrite wrap_fence_strip. unfold strip_fence.
  replace (startswith (wrap_fence lang t) fence) with true
    by (symmetry; apply startswith_app).
  assert (F : free_before_end fence (lang ++ nl ++ t ++ nl) = true).
  { pose proof (fence_free_newline_end t H) as F.
    destruct Hlang as [-> | ->]; cbn; rewrite ?andb_true_r; exact F. }
  rewrite (wrap_fence_split lang t F). cbn [list_index nth_error bind_result].
  destruct Hlang as [-> | ->].
  - change ([] ++ nl ++ t ++ nl) with (10%N :: t ++ [10%N]).
    replace (startswith (10%N :: t ++ [10%N]) (u "json")) with false by reflexivity.
    f_equal. now apply strip_padded.
  - change (u "json" ++ nl ++ t ++ nl)
      with (106%N :: 115%N :: 111%N :: 110%N :: 10%N :: t ++ [10%N]).
    replace (startswith (106%N :: 115%N :: 111%N :: 110%N :: 10%N :: t ++ [10%N])
                        (u "json")) with true by reflexivity.
    change (slice_from 4 (106%N :: 115%N :: 111%N :: 110%N :: 10%N :: t ++ [10%N]))
      with (10%N :: t ++ [10%N]).
    f_equal. now apply strip_padded.
Qed.

End FenceFacts.

Section DictFacts.

Lemma dict_get_set_same (d : dict) (k : str) (v : pyval) :
  dict_get (dict_set d k v) k = Some v.
Proof.
  induction d as [|[k0 v0] d IH]; cbn [dict_set dict_get].
  - now rewrite eqb_refl.
  - destruct (PyStr.eqb k0 k) eqn:E; cbn [dict_get]; now rewrite E.
Qed.

Lemma dict_get_set_other (d : dict) (k k' : str) (v : pyval) :
  PyStr.eqb k k' = false -> dict_get (dict_set d k v) k' = dict_get d k'.
Proof.
  intros Hk. induction d as [|[k0 v0] d IH]; cbn [dict_set dict_get].
  - now rewrite Hk.
  - destruct (PyStr.eqb k0 k) eqn:E; cbn [dict_get].
    + apply eqb_eq in E. subst k0. now rewrite Hk.
    + now rewrite IH.
Qed.



End DictFacts.

(* ------------------------------------------------------------------------- *)
(** ** The Researcher *)

Section WebSearch.

Variables (env : Env) (w : World).

(** What [web_search] returns and does, case by case. *)
Lemma web_search_run (query : pyval) :
  web_search env w query =
  match TAVILY_API_KEY env with
  | None | Some [] => (Ok search_unavailable, [])
  | Some api_key =>
    (Ok match tavily_search w api_key query 3 with
        | SearchRaises msg => u "Erro na pesquisa: " ++ msg
        | SearchReturns None | SearchReturns (Some []) => search_no_results
        | SearchReturns (Some hits) => join nl (map format_hit hits)
        end,
     [EvSearch api_key query 3])
  end.
Proof.
  unfold web_search. destruct (TAVILY_API_KEY env) as [[|c k]|]; try reflexivity.
  unfold client_search, try_except, bind, emit, raise, ret.
  destruct (tavily_search w (c :: k) query 3) as [msg|[[|h hits]|]]; reflexivity.
Qed.

Lemma web_search_ok (query : pyval) :
  exists s tr, web_search env w query = (Ok s, tr).
Proof.
  rewrite web_search_run.
  destruct (TAVILY_API_KEY env) as [[|c k]|]; eauto.
Qed.

End WebSearch.

(** C5. The Researcher never raises: without a search credential it returns
    the fixed unavailable message and makes no call at all (its trace is
    empty); with one, an exception of the search call becomes the text
    ["Erro na pesquisa: "] followed by the exception's message, and a normal
    return gives some text as well. *)
Theorem web_search_never_raises (env : Env) (w : World) (query : pyval) :
  match TAVILY_API_KEY env with
  | None | Some [] =>
    web_search env w query = (Ok search_unavailable, [])
  | Some api_key =>
    match tavily_search w api_key query 3 with
    | SearchRaises msg =>
      web_search env w query =
      (Ok (u "Erro na pesquisa: " ++ msg), [EvSearch api_key query 3])
    | SearchReturns _ =>
      exists s, web_search env w query = (Ok s, [EvSearch api_key query 3])
    end
  end.
Proof.
  rewrite web_search_run.
  destruct (TAVILY_API_KEY env) as [[|c k]|]; try reflexivity.
  destruct (tavily_search w (c :: k) query 3) as [msg|r]; [reflexivity|eauto].
Qed.

(** C6. With a credential configured and a search call that returns, the
    Researcher makes exactly one request, asking for at most three results;
    an empty (or missing) result list gives the fixed no-results message, and
    otherwise the text is one line per result, joined by line feeds, each line
    being ["- "], the title, [": "], the first 200 characters of the content
    and ["..."]. *)
Theorem web_search_formats_results
        (env : Env) (w : World) (query : pyval) (api_key : str)
        (results : option (list search_hit)) :
  TAVILY_API_KEY env = Some api_key ->
  api_key <> [] ->
  tavily_search w api_key query 3 = SearchReturns results ->
  let hits := match results with Some l => l | None => [] end in
  web_search env w query =
  (Ok (match hits with
       | [] => search_no_results
       | _ => join nl (map (fun r => u "- " ++ title r ++ u ": "
                                       ++ firstn 200 (content r) ++ u "...") hits)
       end),
   [EvSearch api_key query 3]).
Proof.
  intros Hkey Hne Hcall hits.
  rewrite web_search_run, Hkey.
  destruct api_key as [|c k]; [congruence|]. rewrite Hcall.
  subst hits. destruct results as [[|h l]|]; reflexivity.
Qed.

Lemma web_search_formats_results_witness :
  web_search sample_env
    (sample_world text_research text_enriched two_hits (PostReturns 200))
    (PStr (u "crash 2.0"))
  = (Ok (u "- Release notes: Fixed in 2.1..." ++ nl
         ++ u "- Forum: Try a clean install..."),
     [EvSearch (u "t-key") (PStr (u "crash 2.0")) 3]).
Proof.
  apply (web_search_formats_results sample_env
           (sample_world text_research text_enriched two_hits (PostReturns 200))
           (PStr (u "crash 2.0")) (u "t-key")
           (Some [ {| title := u "Release notes"; content := u "Fixed in 2.1" |};
                   {| title := u "Forum"; content := u "Try a clean install" |} ])).
  - reflexivity.
  - discriminate.
  - reflexivity.
Defined.

Example web_search_without_credential :
  web_search bare_env
    (sample_world text_research text_enriched two_hits (PostReturns 200))
    (PStr (u "crash 2.0"))
  = (Ok (u "Web search não disponível (TAVILY_API_KEY não configurada)"), []).
Proof. by_computation. Qed.

Example web_search_on_exception :
  web_search sample_env
    (sample_world text_research text_enriched (SearchRaises (u "401 Unauthorized"))
                  (PostReturns 200))
    (PStr (u "crash 2.0"))
  = (Ok (u "Erro na pesquisa: 401 Unauthorized"),
     [EvSearch (u "t-key") (PStr (u "crash 2.0")) 3]).
Proof. by_computation. Qed.

(** What the Researcher returns is never the empty text, so what the Analyzer
    attaches as [search_results] is truthy. *)
Lemma web_search_text_truthy (env : Env) (w : World) (query : pyval)
      (s : str) (tr : list event) :
  web_search env w query = (Ok s, tr) -> truthy (PStr s) = true.
Proof.
  rewrite web_search_run.
  destruct (TAVILY_API_KEY env) as [[|c k]|]; try (intros [= <- _]; reflexivity).
  destruct (tavily_search w (c :: k) query 3) as [msg|[[|h [|h' hits]]|]];
    intros [= <- _]; reflexivity.
Qed.

(* ------------------------------------------------------------------------- *)
(** ** The Analyzer *)

Section Analyzer.

Variables (env : Env) (w : World).

Lemma loads_raises (s : str) (e : exn) :
  Json.loads s = Raise e -> e = JSONDecodeError.
Proof.
  unfold Json.loads.
  destruct (Json.lex 0 s) as [ts|]; [|congruence].
  destruct (Json.run _ ts) as [[[] ?]|]; congruence.
Qed.

Lemma fallback_no_research (r : str) : wants_research (fallback_fields r) = false.
Proof. reflexivity. Qed.

(** The run of the Analyzer once the model has answered with a text. *)
Lemma analyze_run (issue_title issue_body t : str) :
  generate_content w (analysis_prompt issue_title issue_body) = GenReturns (TextOk t) ->
  analyze_with_gemini env w issue_title issue_body =
  match parsed_or_fallback t with
  | PDict d =>
    if wants_research d
    then (fst (research env w issue_title (PDict d)),
          EvGenerate (analysis_prompt issue_title issue_body)
            :: snd (research env w issue_title (PDict d)))
    else (Ok (PDict d), [EvGenerate (analysis_prompt issue_title issue_body)])
  | _ => (Raise AttributeError, [EvGenerate (analysis_prompt issue_title issue_body)])
  end.
Proof.
  intros H. unfold analyze_with_gemini, model_generate, text_of.
  rewrite H. run_py. rewrite clean_response_ok.
  unfold parsed_or_fallback.
  destruct (Json.loads (cleaned t)) as [v|e] eqn:L.
  - destruct v; try reflexivity.
    unfold wants_research, py_get.
    destruct (truthy (dict_get_or d (u "needs_research") PNone)); [|reflexivity].
    cbn [andb].
    destruct (truthy (dict_get_or d (u "research_query") PNone)); [|reflexivity].
    destruct (research env w issue_title (PDict d)) as [r tr]. reflexivity.
  - rewrite (loads_raises _ _ L). cbn [is_JSONDecodeError].
    unfold fallback. rewrite fallback_no_research. reflexivity.
Qed.


(** Without a text from the model the Analyzer raises what the call raised. *)
Lemma analyze_without_text (issue_title issue_body : str) :
  (forall t, generate_content w (analysis_prompt issue_title issue_body)
             <> GenReturns (TextOk t)) ->
  exists e, analyze_with_gemini env w issue_title issue_body
            = (Raise e, [EvGenerate (analysis_prompt issue_title issue_body)]).
Proof.
  intros H. unfold analyze_with_gemini, model_generate, text_of.
  destruct (generate_content w (analysis_prompt issue_title issue_body))
    as [msg|[t|msg]]; [| now destruct (H t) |]; run_py; eauto.
Qed.

(** [d["research_query"]] when line 125 let the research stage in. *)
Lemma wants_research_query (d : dict) :
  wants_research d = true ->
  exists query, dict_get d (u "research_query") = Some query /\ truthy query = true.
Proof.
  unfold wants_research, dict_get_or. intros H.
  apply andb_true_iff in H as [_ H].
  destruct (dict_get d (u "research_query")) as [query|]; [eauto|discriminate].
Qed.

(** The research stage on an analysis that has its query and suggestions. *)
Lemma research_run (issue_title : str) (d : dict) (query original : pyval)
      (s : str) (tr : list event) :
  dict_get d (u "research_query") = Some query ->
  dict_get d (u "suggestions") = Some original ->
  web_search env w query = (Ok s, tr) ->
  let prompt := EnrichmentPrompt issue_title query s original in
  let d1 := dict_set d (u "search_results") (PStr s) in
  research env w issue_title (PDict d) =
  match generate_content w prompt with
  | GenRaises msg => (Raise (ServiceError msg), tr ++ [EvGenerate prompt])
  | GenReturns r => (Ok (PDict (enrich d1 original r)), tr ++ [EvGenerate prompt])
  end.
Proof.
  intros Hq Ho Hs prompt d1.
  assert (Hq1 : dict_get d1 (u "research_query") = Some query)
    by (unfold d1; rewrite dict_get_set_other; [exact Hq|reflexivity]).
  assert (Ho1 : dict_get d1 (u "suggestions") = Some original)
    by (unfold d1; rewrite dict_get_set_other; [exact Ho|reflexivity]).
  unfold research, model_generate, text_of, py_getitem, py_setitem.
  rewrite Hq. run_py. rewrite Hs. fold d1. rewrite Hq1, Ho1. fold prompt.
  destruct (generate_content w prompt) as [msg|[t|msg]]; cbn [app].
  - reflexivity.
  - destruct (strip_fence_ok (strip t)) as [a Ha].
    assert (Hc : cleaned t = strip a)
      by (unfold cleaned, clean_response; now rewrite Ha).
    unfold enrich. rewrite Hc, Ha.
    destruct (Json.loads (strip a)) as [[]|e]; cbn; rewrite ?app_nil_r; reflexivity.
  - cbn. rewrite ?app_nil_r. reflexivity.
Qed.

(** The research stage on an analysis without suggestions stops before the
    second model call. *)
Lemma research_without_suggestions (issue_title : str) (d : dict) (query : pyval)
      (s : str) (tr : list event) :
  dict_get d (u "research_query") = Some query ->
  dict_get d (u "suggestions") = None ->
  web_search env w query = (Ok s, tr) ->
  research env w issue_title (PDict d) = (Raise (KeyError (u "suggestions")), tr).
Proof.
  intros Hq Ho Hs.
  set (d1 := dict_set d (u "search_results") (PStr s)).
  assert (Hq1 : dict_get d1 (u "research_query") = Some query)
    by (unfold d1; rewrite dict_get_set_other; [exact Hq|reflexivity]).
  assert (Ho1 : dict_get d1 (u "suggestions") = None)
    by (unfold d1; rewrite dict_get_set_other; [exact Ho|reflexivity]).
  unfold research, model_generate, text_of, py_getitem, py_setitem.
  rewrite Hq. run_py. rewrite Hs. fold d1. rewrite Hq1, Ho1.
  rewrite ?app_nil_r. reflexivity.
Qed.

End Analyzer.

Section AnalyzerClaims.

Variables (env : Env) (w : World).


(** The enrichment leaves the attached search text alone. *)
Lemma enrich_keeps_search_results (d : dict) (original : pyval) (r : text_outcome)
      (s : str) :
  dict_get (enrich (dict_set d (u "search_results") (PStr s)) original r)
           (u "search_results")
  = Some (PStr s).
Proof.
  unfold enrich. destruct r as [t|msg]; [|apply dict_get_set_same].
  destruct (Json.loads (cleaned t)) as [[]|e]; try apply dict_get_set_same.
  rewrite dict_get_set_other by reflexivity. apply dict_get_set_same.
Qed.

(** After a research stage that returns, the Notifier's test of line 252 on
    the result holds. *)
Lemma research_attached_after_research (issue_title : str) (d d' : dict)
      (tr : list event) :
  wants_research d = true ->
  research env w issue_title (PDict d) = (Ok (PDict d'), tr) ->
  research_attached (PDict d') = true.
Proof.
  intros Hw Hrun.
  destruct (wants_research_query d Hw) as (query & Hq & _).
  destruct (web_search_ok env w query) as (s & trs & Hs).
  destruct (dict_get d (u "suggestions")) as [original|] eqn:Ho.
  - rewrite (research_run env w issue_title d query original s trs Hq Ho Hs) in Hrun.
    destruct (generate_content w (EnrichmentPrompt issue_title query s original))
      as [msg|r]; [discriminate Hrun|].
    injection Hrun as <- _.
    unfold research_attached, py_get, dict_get_or.
    rewrite enrich_keeps_search_results.
    exact (web_search_text_truthy env w query s trs Hs).
  - rewrite (research_without_suggestions env w issue_title d query s trs Hq Ho Hs) in Hrun.
    discriminate Hrun.
Qed.


End AnalyzerClaims.






(** C3 (as amended). For a response text [t] that holds no fence marker,
    wrapping [t] in code-fence markers (bare, or tagged [json]) changes
    neither the text that is parsed nor what the Analyzer returns and does. *)
Theorem fence_wrapping_is_transparent
        (env : Env) (w : World) (issue_title issue_body lang t : str) :
  lang = [] \/ lang = u "json" ->
  contains t fence = false ->
  cleaned (wrap_fence lang t) = cleaned t
  /\ Json.loads (cleaned (wrap_fence lang t)) = Json.loads (cleaned t)
  /\ analyze_with_gemini env (answering w (wrap_fence lang t)) issue_title issue_body
     = analyze_with_gemini env (answering w t) issue_title issue_body.
Proof.
  intros Hlang Hfree.
  assert (E : cleaned (wrap_fence lang t) = cleaned t).
  { unfold cleaned.
    now rewrite (clean_response_wrapped lang t Hlang Hfree),
                (clean_response_plain t Hfree). }
  split; [exact E|]. split; [now rewrite E|].
  rewrite (analyze_run env (answering w (wrap_fence lang t)) issue_title issue_body
                       (wrap_fence lang t) eq_refl).
  rewrite (analyze_run env (answering w t) issue_title issue_body t eq_refl).
  unfold parsed_or_fallback. rewrite E.
  destruct (match Json.loads (cleaned t) with
            | Ok v => v | Raise _ => fallback (cleaned t) end); try reflexivity.
Qed.

Lemma fence_wrapping_is_transparent_witness :
  cleaned (wrap_fence (u "json") text_complete) = cleaned text_complete
  /\ Json.loads (cleaned (wrap_fence (u "json") text_complete))
     = Json.loads (cleaned text_complete)
  /\ analyze_with_gemini sample_env
       (answering (sample_world [] text_enriched two_hits (PostReturns 200))
                  (wrap_fence (u "json") text_complete))
       (u "Crash on startup") []
     = analyze_with_gemini sample_env
         (answering (sample_world [] text_enriched two_hits (PostReturns 200))
                    text_complete)
         (u "Crash on startup") [].
Proof.
  apply (fence_wrapping_is_transparent sample_env
           (sample_world [] text_enriched two_hits (PostReturns 200))
           (u "Crash on startup") [] (u "json") text_complete).
  - right. reflexivity.
  - vm_compute. reflexivity.
Defined.

(** C3, the claim as stated fails: a response whose JSON holds a fence marker
    inside a string parses when it is sent bare, and is cut at that marker,
    so that it no longer parses, when it is sent wrapped. *)
Lemma fence_wrapping_changes_result :
  Json.loads (cleaned text_inner_fence)
  = Ok (PDict [(u "summary", PStr (u "run ```make``` first"))])
  /\ Json.loads (cleaned (wrap_fence (u "json") text_inner_fence))
     = Raise JSONDecodeError
  /\ fst (analyze_with_gemini sample_env
            (answering (sample_world [] [] two_hits (PostReturns 200)) text_inner_fence)
            (u "Crash on startup") [])
     = Ok (PDict [(u "summary", PStr (u "run ```make``` first"))])
  /\ fst (analyze_with_gemini sample_env
            (answering (sample_world [] [] two_hits (PostReturns 200))
                       (wrap_fence (u "json") text_inner_fence))
            (u "Crash on startup") [])
     = Ok (fallback (js "{'summary': 'run")).
Proof. by_computation. Qed.

(** C4. When the analysis asks for research and the text of the second
    (enrichment) answer fails to parse as JSON, the Analyzer still returns
    normally, and the suggestions of its result are the original ones; the
    only change to the parsed analysis is the search text attached to it. *)
Theorem enrichment_failure_keeps_suggestions
        (env : Env) (w : World) (issue_title issue_body t t2 : str)
        (d : dict) (original : pyval) :
  generate_content w (analysis_prompt issue_title issue_body) = GenReturns (TextOk t) ->
  Json.loads (cleaned t) = Ok (PDict d) ->
  wants_research d = true ->
  dict_get d (u "suggestions") = Some original ->
  (forall query s,
      generate_content w (EnrichmentPrompt issue_title query s original)
      = GenReturns (TextOk t2)) ->
  Json.loads (cleaned t2) = Raise JSONDecodeError ->
  exists s tr,
    analyze_with_gemini env w issue_title issue_body
    = (Ok (PDict (dict_set d (u "search_results") (PStr s))), tr)
    /\ dict_get (dict_set d (u "search_results") (PStr s)) (u "suggestions")
       = Some original.
Proof.
  intros Hgen Hd Hw Ho Hsecond Hfail.
  rewrite (analyze_run env w _ _ _ Hgen).
  unfold parsed_or_fallback. rewrite Hd, Hw.
  destruct (wants_research_query d Hw) as (query & Hq & _).
  destruct (web_search_ok env w query) as (s & tr & Hs).
  rewrite (research_run env w issue_title d query original s tr Hq Ho Hs).
  rewrite Hsecond. cbn [fst snd enrich]. rewrite Hfail.
  do 2 eexists. split; [reflexivity|].
  rewrite dict_get_set_other; [exact Ho|reflexivity].
Qed.

Lemma enrichment_failure_keeps_suggestions_witness :
  exists s tr,
    analyze_with_gemini sample_env
      (sample_world text_research text_garbage two_hits (PostReturns 200))
      (u "Crash on startup") []
    = (Ok (PDict (dict_set
                    [ (u "summary", PStr (u "App crashes"));
                      (u "classification", PStr (u "bug"));
                      (u "priority", PStr (u "high"));
                      (u "suggestions", PList [PStr (u "Check logs")]);
                      (u "needs_research", PBool true);
                      (u "research_query", PStr (u "crash 2.0")) ]
                    (u "search_results") (PStr s))), tr)
    /\ dict_get (dict_set
                   [ (u "summary", PStr (u "App crashes"));
                     (u "classification", PStr (u "bug"));
                     (u "priority", PStr (u "high"));
                     (u "suggestions", PList [PStr (u "Check logs")]);
                     (u "needs_research", PBool true);
                     (u "research_query", PStr (u "crash 2.0")) ]
                   (u "search_results") (PStr s)) (u "suggestions")
       = Some (PList [PStr (u "Check logs")]).
Proof.
  apply (enrichment_failure_keeps_suggestions sample_env
           (sample_world text_research text_garbage two_hits (PostReturns 200))
           (u "Crash on startup") [] text_research text_garbage).
  - reflexivity.
  - vm_compute. reflexivity.
  - vm_compute. reflexivity.
  - vm_compute. reflexivity.
  - intros query s. reflexivity.
  - vm_compute. reflexivity.
Defined.




(** C10 (as amended). With the analysis [d] the Analyzer holds after parsing
    (the parsed object, or the fallback): when [needs_research] and
    [research_query] are not both truthy, nothing happens after the first
    model call and the analysis is returned as it is (no search, no
    [search_results] added, no second model call); when both are truthy and
    the analysis has its suggestions, the Researcher is called with the query,
    the second model call follows with the enrichment prompt, and the result
    (unless that call raises) carries the search text. The fallback, and an
    analysis whose [research_query] is missing or null, are never in the
    second case. *)
Theorem research_stage_gate
        (env : Env) (w : World) (issue_title issue_body t : str) (d : dict) :
  generate_content w (analysis_prompt issue_title issue_body) = GenReturns (TextOk t) ->
  parsed_or_fallback t = PDict d ->
  (wants_research d = true -> has_key d (u "suggestions") = true) ->
  (if wants_research d then
     exists query original s trs r,
       dict_get d (u "research_query") = Some query
       /\ dict_get d (u "suggestions") = Some original
       /\ web_search env w query = (Ok s, trs)
       /\ analyze_with_gemini env w issue_title issue_body
          = (r, EvGenerate (analysis_prompt issue_title issue_body)
                  :: trs ++ [EvGenerate (EnrichmentPrompt issue_title query s original)])
       /\ match r with
          | Ok (PDict d') => dict_get d' (u "search_results") = Some (PStr s)
          | Ok _ => False
          | Raise e => exists msg, e = ServiceError msg
          end
   else
     analyze_with_gemini env w issue_title issue_body
     = (Ok (PDict d), [EvGenerate (analysis_prompt issue_title issue_body)]))
  /\ (Json.loads (cleaned t) = Raise JSONDecodeError -> wants_research d = false)
  /\ (dict_get d (u "research_query") = None
      \/ dict_get d (u "research_query") = Some PNone ->
      wants_research d = false).
Proof.
  intros Hgen Hd Hsugg. split; [|split].
  - rewrite (analyze_run env w _ _ _ Hgen), Hd.
    destruct (wants_research d) eqn:Hw; [|reflexivity].
    destruct (wants_research_query d Hw) as (query & Hq & _).
    specialize (Hsugg eq_refl). unfold has_key in Hsugg.
    destruct (dict_get d (u "suggestions")) as [original|] eqn:Ho; [|discriminate].
    destruct (web_search_ok env w query) as (s & trs & Hs).
    rewrite (research_run env w issue_title d query original s trs Hq Ho Hs).
    exists query, original, s, trs.
    destruct (generate_content w (EnrichmentPrompt issue_title query s original))
      as [msg|r]; cbn [fst snd].
    + eexists. split; [exact Hq|]. split; [reflexivity|]. split; [exact Hs|].
      split; [reflexivity|]. cbn. eauto.
    + eexists. split; [exact Hq|]. split; [reflexivity|]. split; [exact Hs|].
      split; [reflexivity|]. cbn match. apply enrich_keeps_search_results.
  - intros Hfail. unfold parsed_or_fallback in Hd. rewrite Hfail in Hd.
    injection Hd as <-. apply fallback_no_research.
  - unfold wants_research, dict_get_or.
    intros [-> | ->]; apply andb_false_r.
Qed.

Lemma research_stage_gate_witness :
  (if wants_research fields_research then
     exists query original s trs r,
       dict_get fields_research (u "research_query") = Some query
       /\ dict_get fields_research (u "suggestions") = Some original
       /\ web_search sample_env
            (sample_world text_research text_enriched two_hits (PostReturns 200)) query
          = (Ok s, trs)
       /\ analyze_with_gemini sample_env
            (sample_world text_research text_enriched two_hits (PostReturns 200))
            (u "Crash on startup") []
          = (r, EvGenerate (analysis_prompt (u "Crash on startup") [])
                  :: trs ++ [EvGenerate (EnrichmentPrompt (u "Crash on startup")
                                                          query s original)])
       /\ match r with
          | Ok (PDict d') => dict_get d' (u "search_results") = Some (PStr s)
          | Ok _ => False
          | Raise e => exists msg, e = ServiceError msg
          end
   else
     analyze_with_gemini sample_env
       (sample_world text_research text_enriched two_hits (PostReturns 200))
       (u "Crash on startup") []
     = (Ok (PDict fields_research),
        [EvGenerate (analysis_prompt (u "Crash on startup") [])]))
  /\ (Json.loads (cleaned text_research) = Raise JSONDecodeError ->
      wants_research fields_research = false)
  /\ (dict_get fields_research (u "research_query") = None
      \/ dict_get fields_research (u "research_query") = Some PNone ->
      wants_research fields_research = false).
Proof.
  apply (research_stage_gate sample_env
           (sample_world text_research text_enriched two_hits (PostReturns 200))
           (u "Crash on startup") [] text_research fields_research).
  - reflexivity.
  - vm_compute. reflexivity.
  - intros _. vm_compute. reflexivity.
Defined.

Example research_skipped_without_query :
  analyze_with_gemini sample_env
    (sample_world text_research_no_query text_enriched two_hits (PostReturns 200))
    (u "Crash on startup") []
  = (Ok (PDict fields_research_no_query),
     [EvGenerate (analysis_prompt (u "Crash on startup") [])]).
Proof. by_computation. Qed.

Example research_enriches_suggestions :
  analyze_with_gemini sample_env
    (sample_world text_research text_enriched two_hits (PostReturns 200))
    (u "Crash on startup") []
  = (Ok (PDict fields_enriched),
     [ EvGenerate (analysis_prompt (u "Crash on startup") []);
       EvSearch (u "t-key") (PStr (u "crash 2.0")) 3;
       EvGenerate (EnrichmentPrompt (u "Crash on startup") (PStr (u "crash 2.0"))
                                    two_hits_text (PList [PStr (u "Check logs")])) ]).
Proof. by_computation. Qed.

(** C10, the claim as stated fails: an analysis with a truthy
    [needs_research] and [research_query] but no suggestions gets its web
    search, and the Analyzer raises [KeyError] before the second model call. *)
Lemma research_without_second_call :
  exists d,
    parsed_or_fallback text_research_no_suggestions = PDict d
    /\ wants_research d = true
    /\ analyze_with_gemini sample_env
         (sample_world text_research_no_suggestions text_enriched two_hits (PostReturns 200))
         (u "Crash on startup") []
       = (Raise (KeyError (u "suggestions")),
          [EvGenerate (analysis_prompt (u "Crash on startup") []);
           EvSearch (u "t-key") (PStr (u "crash 2.0")) 3]).
Proof. eexists. by_computation. Qed.

(* ------------------------------------------------------------------------- *)
(** ** The Notifier *)

Section Notifier.

Variable env : Env.

(** The blocks first built are eight, the footer last. *)
Lemma base_message_shape (analysis : pyval) (message : list block) :
  base_message env analysis = Ok message ->
  exists fixed,
    message = fixed ++ [footer env]
    /\ map block_type fixed
       = [ u "header"; u "section"; u "section"; u "section"; u "section";
           u "section"; u "divider" ].
Proof.
  unfold base_message. destruct analysis as [| | | | | |d]; try discriminate.
  cbn [py_get bind_result].
  destruct (py_iter _) as [items|e]; [|discriminate]. cbn [bind_result].
  destruct (table_get class_emoji _ _) as [cemoji|e]; [|discriminate].
  cbn [bind_result].
  destruct (table_get priority_emoji _ _) as [pemoji|e]; [|discriminate].
  cbn [bind_result]. intros [= <-].
  eexists (_ :: _ :: _ :: _ :: _ :: _ :: [_]). split; reflexivity.
Qed.

Lemma insert_before_last (fixed : list block) (last b : block) :
  list_insert (fixed ++ [last]) (-1) b = fixed ++ [b] ++ [last].
Proof.
  unfold list_insert. rewrite length_app. cbn [List.length].
  change (-1 <? 0)%Z with true. cbv iota.
  replace (Z.to_nat (Z.max 0 (-1 + Z.of_nat (List.length fixed + 1))))
    with (List.length fixed) by lia.
  rewrite firstn_app, firstn_all, Nat.sub_diag, skipn_app, skipn_all, Nat.sub_diag.
  cbn. now rewrite app_nil_r.
Qed.

End Notifier.

(** C9. The message the Notifier builds is a fixed sequence of seven blocks
    (header, five sections, divider) followed by the footer context block;
    exactly when the analysis carries search results ([search_results] is
    truthy, which it is after a research stage, see
    [research_attached_after_research]), one context block noting the web
    research stands immediately before the footer, and the seven blocks and
    the footer are as they are without it. *)
Theorem research_note_before_footer
        (env : Env) (analysis : pyval) (message : list block) :
  base_message env analysis = Ok message ->
  exists fixed,
    message = fixed ++ [footer env]
    /\ map block_type fixed
       = [ u "header"; u "section"; u "section"; u "section"; u "section";
           u "section"; u "divider" ]
    /\ build_message env analysis
       = Ok {| blocks :=
                 fixed
                 ++ (if research_attached analysis then [research_note] else [])
                 ++ [footer env] |}.
Proof.
  intros H. destruct (base_message_shape env analysis message H) as (fixed & -> & Ht).
  exists fixed. split; [reflexivity|]. split; [exact Ht|].
  unfold build_message, research_attached. rewrite H. cbn [bind_result].
  destruct analysis as [| | | | | |d]; try discriminate H.
  cbn [py_get bind_result].
  destruct (truthy (dict_get_or d (u "search_results") PNone)).
  - now rewrite insert_before_last.
  - reflexivity.
Qed.

Lemma research_note_before_footer_witness :
  exists fixed,
    blocks (message_of (build_message sample_env
                          (PDict (dict_set fields_research (u "search_results")
                                           (PStr two_hits_text)))))
    = fixed ++ [research_note] ++ [footer sample_env]
    /\ List.length fixed = 7.
Proof.
  destruct (research_note_before_footer sample_env
              (PDict (dict_set fields_research (u "search_results") (PStr two_hits_text)))
              (blocks_of sample_env
                 (PDict (dict_set fields_research (u "search_results") (PStr two_hits_text))))
              eq_refl)
    as (fixed & _ & Ht & Hb).
  exists fixed. rewrite Hb. split; [reflexivity|].
  apply (f_equal (@List.length _)) in Ht. rewrite length_map in Ht. exact Ht.
Defined.



Example send_to_slack_without_webhook :
  send_to_slack bare_env
    (sample_world text_complete text_garbage two_hits (PostRaises (u "unreachable")))
    (PDict fields_complete)
  = (Ok false,
     [EvPrint [Lit (u "SLACK_WEBHOOK_URL não configurada - pulando envio")]]).
Proof. by_computation. Qed.

Example send_to_slack_delivers :
  send_to_slack sample_env
    (sample_world text_complete text_garbage two_hits (PostReturns 200))
    (PDict fields_complete)
  = (Ok true,
     [EvPost (u "https://hooks.slack.example/T0")
             (message_of (build_message sample_env (PDict fields_complete)));
      EvPrint [Lit (u "Mensagem enviada para Slack com sucesso!")]]).
Proof. by_computation. Qed.


(* ------------------------------------------------------------------------- *)
(** ** Runs and their events *)

Section Events.

Lemma count_app (kind : event -> bool) (a b : list event) :
  count kind (a ++ b) = count kind a + count kind b.
Proof. unfold count. now rewrite filter_app, length_app. Qed.


Lemma count_cons (kind : event -> bool) (ev : event) (tr : list event) :
  count kind (ev :: tr) = (if kind ev then 1 else 0) + count kind tr.
Proof. unfold count. cbn [filter]. destruct (kind ev); reflexivity. Qed.

Lemma count_opening_lines (kind : event -> bool) (env : Env) :
  (forall line, kind (EvPrint line) = false) ->
  count kind (opening_lines env) = 0.
Proof. intros H. unfold opening_lines. now rewrite !count_cons, !H. Qed.


End Events.

Section AnalyzerRuns.

Variables (env : Env) (w : World).

(** The Researcher makes one search call or none. *)
Lemma web_search_events (query : pyval) (s : str) (tr : list event) :
  web_search env w query = (Ok s, tr) ->
  tr = [] \/ exists api_key, tr = [EvSearch api_key query 3].
Proof.
  rewrite web_search_run.
  destruct (TAVILY_API_KEY env) as [[|c k]|]; intros [= _ <-]; eauto.
Qed.

(** The run of the Analyzer through the research stage. *)
Lemma analyze_research (issue_title issue_body t : str) (d : dict) :
  generate_content w (analysis_prompt issue_title issue_body) = GenReturns (TextOk t) ->
  parsed_or_fallback t = PDict d ->
  wants_research d = true ->
  exists query s trs,
    dict_get d (u "research_query") = Some query
    /\ web_search env w query = (Ok s, trs)
    /\ analyze_with_gemini env w issue_title issue_body =
       match dict_get d (u "suggestions") with
       | None =>
         (Raise (KeyError (u "suggestions")),
          EvGenerate (analysis_prompt issue_title issue_body) :: trs)
       | Some original =>
         match generate_content w (EnrichmentPrompt issue_title query s original) with
         | GenRaises msg =>
           (Raise (ServiceError msg),
            EvGenerate (analysis_prompt issue_title issue_body)
              :: trs ++ [EvGenerate (EnrichmentPrompt issue_title query s original)])
         | GenReturns r =>
           (Ok (PDict (enrich (dict_set d (u "search_results") (PStr s)) original r)),
            EvGenerate (analysis_prompt issue_title issue_body)
              :: trs ++ [EvGenerate (EnrichmentPrompt issue_title query s original)])
         end
       end.
Proof.
  intros Hgen Hd Hw.
  destruct (wants_research_query d Hw) as (query & Hq & _).
  destruct (web_search_ok env w query) as (s & trs & Hs).
  exists query, s, trs. split; [exact Hq|]. split; [exact Hs|].
  rewrite (analyze_run env w _ _ _ Hgen), Hd. cbv beta iota. rewrite Hw.
  destruct (dict_get d (u "suggestions")) as [original|] eqn:Ho.
  - rewrite (research_run env w issue_title d query original s trs Hq Ho Hs).
    destruct (generate_content w (EnrichmentPrompt issue_title query s original));
      reflexivity.
  - rewrite (research_without_suggestions env w issue_title d query s trs Hq Ho Hs).
    reflexivity.
Qed.

(** Every run of the Analyzer: the first model call, then nothing, or a
    search, or a second model call, or both; what it returns is an object. *)
Lemma analyze_events (issue_title issue_body : str) :
  exists r rest,
    analyze_with_gemini env w issue_title issue_body
    = (r, EvGenerate (analysis_prompt issue_title issue_body) :: rest)
    /\ (rest = []
        \/ (exists k q, rest = [EvSearch k q 3])
        \/ (exists p, rest = [EvGenerate p])
        \/ (exists k q p, rest = [EvSearch k q 3; EvGenerate p]))
    /\ match r with
       | Ok a => exists d, a = PDict d
       | Raise _ => True
       end.
Proof.
  destruct (generate_content w (analysis_prompt issue_title issue_body))
    as [msg|[t|msg]] eqn:Hgen.
  - destruct (analyze_without_text env w issue_title issue_body) as [e ->];
      [intros t'; rewrite Hgen; discriminate|].
    exists (Raise e), []. auto.
  - destruct (parsed_or_fallback t) as [| | | | | |d] eqn:Hd;
      try (rewrite (analyze_run env w _ _ _ Hgen), Hd;
           exists (Raise AttributeError), []; now auto).
    destruct (wants_research d) eqn:Hw.
    + destruct (analyze_research _ _ _ _ Hgen Hd Hw) as (query & s & trs & Hq & Hs & ->).
      destruct (web_search_events _ _ _ Hs) as [-> | [k ->]];
        (destruct (dict_get d (u "suggestions")) as [original|];
         [destruct (generate_content w (EnrichmentPrompt issue_title query s original))|]);
        do 2 eexists; (split; [reflexivity|]); cbn [app]; cbv beta iota; eauto 10.
    + rewrite (analyze_run env w _ _ _ Hgen), Hd. cbv beta iota. rewrite Hw.
      exists (Ok (PDict d)), []. eauto.
  - destruct (analyze_without_text env w issue_title issue_body) as [e ->];
      [intros t'; rewrite Hgen; discriminate|].
    exists (Raise e), []. auto.
Qed.


Lemma analyze_counts (issue_title issue_body : str) :
  count is_generate (snd (analyze_with_gemini env w issue_title issue_body)) <= 2
  /\ count is_search (snd (analyze_with_gemini env w issue_title issue_body)) <= 1
  /\ count is_post (snd (analyze_with_gemini env w issue_title issue_body)) = 0
  /\ count is_print (snd (analyze_with_gemini env w issue_title issue_body)) = 0.
Proof.
  destruct (analyze_events issue_title issue_body) as (r & rest & -> & Hrest & _).
  cbn [snd].
  destruct Hrest as [-> | [(k & q & ->) | [(p & ->) | (k & q & p & ->)]]];
    unfold count; cbn; repeat split; lia.
Qed.

End AnalyzerRuns.

(** X1. Whatever the model answers, what the Analyzer returns, when it
    returns, is an object: a JSON answer of another kind (a list, a string, a
    number, [null]) never gets out of it. *)
Theorem analyze_returns_object
        (env : Env) (w : World) (issue_title issue_body : str)
        (a : pyval) (tr : list event) :
  analyze_with_gemini env w issue_title issue_body = (Ok a, tr) ->
  exists d, a = PDict d.
Proof.
  destruct (analyze_events env w issue_title issue_body) as (r & rest & -> & _ & Hr).
  intros [= -> _]. exact Hr.
Qed.

Lemma analyze_returns_object_witness :
  exists d, PDict fields_enriched = PDict d.
Proof.
  apply (analyze_returns_object sample_env
           (sample_world text_research text_enriched two_hits (PostReturns 200))
           (u "Crash on startup") [] (PDict fields_enriched)
           [ EvGenerate (analysis_prompt (u "Crash on startup") []);
             EvSearch (u "t-key") (PStr (u "crash 2.0")) 3;
             EvGenerate (EnrichmentPrompt (u "Crash on startup") (PStr (u "crash 2.0"))
                                          two_hits_text (PList [PStr (u "Check logs")])) ]).
  vm_compute. reflexivity.
Defined.


(** X3. An exception of the first model call, or of reading the text of its
    response, is what the Analyzer raises, right after that one call. *)
Theorem analyze_propagates_first_call_failure
        (env : Env) (w : World) (issue_title issue_body : str) (e : exn) :
  model_failure (generate_content w (analysis_prompt issue_title issue_body)) = Some e ->
  analyze_with_gemini env w issue_title issue_body
  = (Raise e, [EvGenerate (analysis_prompt issue_title issue_body)]).
Proof.
  unfold analyze_with_gemini, model_generate, text_of.
  destruct (generate_content w (analysis_prompt issue_title issue_body))
    as [msg|[t|msg]]; cbn [model_failure]; intros [= <-]; reflexivity.
Qed.

Lemma analyze_propagates_first_call_failure_witness :
  analyze_with_gemini sample_env
    (silent_world (GenReturns (TextRaises (u "response blocked"))))
    (u "Crash on startup") []
  = (Raise (ValueError (u "response blocked")),
     [EvGenerate (analysis_prompt (u "Crash on startup") [])]).
Proof.
  apply (analyze_propagates_first_call_failure sample_env
           (silent_world (GenReturns (TextRaises (u "response blocked"))))
           (u "Crash on startup") [] (ValueError (u "response blocked"))).
  reflexivity.
Defined.

(** X4. An exception of the second model call is outside the [try] of the
    enrichment: the Analyzer raises it after the search and the call, and the
    analysis it had parsed is lost. *)
Theorem analyze_propagates_second_call_failure
        (env : Env) (w : World) (issue_title issue_body t msg : str)
        (d : dict) (original : pyval) :
  generate_content w (analysis_prompt issue_title issue_body) = GenReturns (TextOk t) ->
  parsed_or_fallback t = PDict d ->
  wants_research d = true ->
  dict_get d (u "suggestions") = Some original ->
  (forall query s,
      generate_content w (EnrichmentPrompt issue_title query s original)
      = GenRaises msg) ->
  exists query s trs,
    dict_get d (u "research_query") = Some query
    /\ web_search env w query = (Ok s, trs)
    /\ analyze_with_gemini env w issue_title issue_body
       = (Raise (ServiceError msg),
          EvGenerate (analysis_prompt issue_title issue_body)
            :: trs ++ [EvGenerate (EnrichmentPrompt issue_title query s original)]).
Proof.
  intros Hgen Hd Hw Ho Hsecond.
  destruct (analyze_research env w _ _ _ _ Hgen Hd Hw) as (query & s & trs & Hq & Hs & Hrun).
  exists query, s, trs. split; [exact Hq|]. split; [exact Hs|].
  now rewrite Hrun, Ho, Hsecond.
Qed.

Lemma analyze_propagates_second_call_failure_witness :
  exists query s trs,
    dict_get fields_research (u "research_query") = Some query
    /\ web_search sample_env
         (failing_world text_research (GenRaises (u "quota exceeded")) two_hits
                        (PostReturns 200)) query
       = (Ok s, trs)
    /\ analyze_with_gemini sample_env
         (failing_world text_research (GenRaises (u "quota exceeded")) two_hits
                        (PostReturns 200))
         (u "Crash on startup") []
       = (Raise (ServiceError (u "quota exceeded")),
          EvGenerate (analysis_prompt (u "Crash on startup") [])
            :: trs ++ [EvGenerate (EnrichmentPrompt (u "Crash on startup") query s
                                                    (PList [PStr (u "Check logs")]))]).
Proof.
  apply (analyze_propagates_second_call_failure sample_env
           (failing_world text_research (GenRaises (u "quota exceeded")) two_hits
                          (PostReturns 200))
           (u "Crash on startup") [] text_research (u "quota exceeded")
           fields_research (PList [PStr (u "Check logs")])).
  - reflexivity.
  - vm_compute. reflexivity.
  - vm_compute. reflexivity.
  - vm_compute. reflexivity.
  - intros query s. reflexivity.
Defined.

(** X5. When the second answer has a text that parses to an object, the
    suggestions of the result are that object's [suggestions], whatever kind
    of value it is, and the original ones when the object has none; nothing
    is merged. *)
Theorem enrichment_replaces_suggestions
        (env : Env) (w : World) (issue_title issue_body t : str)
        (d e : dict) (original : pyval) (r : text_outcome) :
  generate_content w (analysis_prompt issue_title issue_body) = GenReturns (TextOk t) ->
  parsed_or_fallback t = PDict d ->
  wants_research d = true ->
  dict_get d (u "suggestions") = Some original ->
  (forall query s,
      generate_content w (EnrichmentPrompt issue_title query s original)
      = GenReturns r) ->
  enrichment_object r = Some e ->
  exists s tr d',
    analyze_with_gemini env w issue_title issue_body = (Ok (PDict d'), tr)
    /\ d' = dict_set (dict_set d (u "search_results") (PStr s)) (u "suggestions")
                     (dict_get_or e (u "suggestions") original)
    /\ dict_get d' (u "suggestions")
       = Some (match dict_get e (u "suggestions") with
               | Some updated => updated
               | None => original
               end).
Proof.
  intros Hgen Hd Hw Ho Hsecond He.
  destruct (analyze_research env w _ _ _ _ Hgen Hd Hw) as (query & s & trs & Hq & Hs & Hrun).
  rewrite Ho, Hsecond in Hrun. exists s. do 2 eexists.
  split; [exact Hrun|].
  assert (E : enrich (dict_set d (u "search_results") (PStr s)) original r
              = dict_set (dict_set d (u "search_results") (PStr s)) (u "suggestions")
                         (dict_get_or e (u "suggestions") original)).
  { unfold enrich. unfold enrichment_object in He. destruct r as [t2|msg]; [|discriminate He].
    destruct (Json.loads (cleaned t2)) as [[| | | | | |e']|x]; try discriminate He.
    now injection He as ->. }
  split; [exact E|]. rewrite E. apply dict_get_set_same.
Qed.

Lemma enrichment_replaces_suggestions_witness :
  exists s tr d',
    analyze_with_gemini sample_env
      (sample_world text_research text_enriched two_hits (PostReturns 200))
      (u "Crash on startup") [] = (Ok (PDict d'), tr)
    /\ d' = dict_set (dict_set fields_research (u "search_results") (PStr s))
                     (u "suggestions")
                     (dict_get_or [(u "suggestions", PList [PStr (u "Upgrade to 2.1")])]
                                  (u "suggestions") (PList [PStr (u "Check logs")]))
    /\ dict_get d' (u "suggestions") = Some (PList [PStr (u "Upgrade to 2.1")]).
Proof.
  apply (enrichment_replaces_suggestions sample_env
           (sample_world text_research text_enriched two_hits (PostReturns 200))
           (u "Crash on startup") [] text_research fields_research
           [(u "suggestions", PList [PStr (u "Upgrade to 2.1")])]
           (PList [PStr (u "Check logs")]) (TextOk text_enriched)).
  - reflexivity.
  - vm_compute. reflexivity.
  - vm_compute. reflexivity.
  - vm_compute. reflexivity.
  - intros query s. reflexivity.
  - vm_compute. reflexivity.
Defined.

(** X6. Whatever goes wrong with the second answer once the call has
    returned (its text cannot be read, does not parse, or parses to something
    that is not an object) is swallowed: the Analyzer returns the parsed
    analysis with the search text attached and its own suggestions. *)
Theorem enrichment_failure_is_swallowed
        (env : Env) (w : World) (issue_title issue_body t : str)
        (d : dict) (original : pyval) (r : text_outcome) :
  generate_content w (analysis_prompt issue_title issue_body) = GenReturns (TextOk t) ->
  parsed_or_fallback t = PDict d ->
  wants_research d = true ->
  dict_get d (u "suggestions") = Some original ->
  (forall query s,
      generate_content w (EnrichmentPrompt issue_title query s original)
      = GenReturns r) ->
  enrichment_object r = None ->
  exists s tr,
    analyze_with_gemini env w issue_title issue_body
    = (Ok (PDict (dict_set d (u "search_results") (PStr s))), tr)
    /\ dict_get (dict_set d (u "search_results") (PStr s)) (u "suggestions")
       = Some original.
Proof.
  intros Hgen Hd Hw Ho Hsecond He.
  destruct (analyze_research env w _ _ _ _ Hgen Hd Hw) as (query & s & trs & Hq & Hs & Hrun).
  rewrite Ho, Hsecond in Hrun. exists s. eexists.
  assert (E : enrich (dict_set d (u "search_results") (PStr s)) original r
              = dict_set d (u "search_results") (PStr s)).
  { unfold enrich. unfold enrichment_object in He. destruct r as [t2|msg]; [|reflexivity].
    destruct (Json.loads (cleaned t2)) as [[| | | | | |e']|x];
      try reflexivity. discriminate He. }
  rewrite E in Hrun. split; [exact Hrun|].
  rewrite dict_get_set_other; [exact Ho|reflexivity].
Qed.

Lemma enrichment_failure_is_swallowed_witness :
  exists s tr,
    analyze_with_gemini sample_env
      (failing_world text_research (GenReturns (TextOk text_list)) two_hits
                     (PostReturns 200))
      (u "Crash on startup") []
    = (Ok (PDict (dict_set fields_research (u "search_results") (PStr s))), tr)
    /\ dict_get (dict_set fields_research (u "search_results") (PStr s))
                (u "suggestions")
       = Some (PList [PStr (u "Check logs")]).
Proof.
  apply (enrichment_failure_is_swallowed sample_env
           (failing_world text_research (GenReturns (TextOk text_list)) two_hits
                          (PostReturns 200))
           (u "Crash on startup") [] text_research fields_research
           (PList [PStr (u "Check logs")]) (TextOk text_list)).
  - reflexivity.
  - vm_compute. reflexivity.
  - vm_compute. reflexivity.
  - vm_compute. reflexivity.
  - intros query s. reflexivity.
  - vm_compute. reflexivity.
Defined.

(* ------------------------------------------------------------------------- *)
(** ** The Notifier on every analysis *)

Section NotifierRuns.

Variables (env : Env) (w : World).

(** Building the message fails on the type of three fields only. *)
Lemma build_message_typing (d : dict) :
  build_message env (PDict d) =
  if iterable (dict_get_or d (u "suggestions") (PList []))
     && hashable (dict_get_or d (u "classification") (PStr (u "other")))
     && hashable (dict_get_or d (u "priority") (PStr (u "medium")))
  then Ok (message_of (build_message env (PDict d)))
  else Raise TypeError.
Proof.
  unfold build_message, base_message. cbn [py_get bind_result].
  destruct (dict_get_or d (u "suggestions") (PList []));
    cbn [py_iter iterable bind_result andb]; try reflexivity;
    (destruct (dict_get_or d (u "classification") (PStr (u "other")));
     cbn [table_get hashable bind_result andb]; try reflexivity;
     (destruct (dict_get_or d (u "priority") (PStr (u "medium")));
      cbn [table_get hashable bind_result andb message_of]; reflexivity)).
Qed.




Lemma suggestions_text_bullets (items : list pyval) :
  List.length (filter is_bullet (suggestions_text items)) = List.length items.
Proof.
  induction items as [|s rest IH]; [reflexivity|].
  destruct rest as [|s' rest']; [reflexivity|].
  change (suggestions_text (s :: s' :: rest'))
    with (Lit (u "• ") :: Fmt s :: Lit nl :: suggestions_text (s' :: rest')).
  change (filter is_bullet
            (Lit (u "• ") :: Fmt s :: Lit nl :: suggestions_text (s' :: rest')))
    with (Lit (u "• ") :: filter is_bullet (suggestions_text (s' :: rest'))).
  cbn [List.length]. now rewrite IH.
Qed.

(** After a research stage that returns, the message carries the note. *)
Lemma build_message_with_note (analysis : pyval) (m : slack_message) :
  research_attached analysis = true ->
  build_message env analysis = Ok m ->
  exists fixed,
    blocks m = fixed ++ [research_note; footer env] /\ List.length fixed = 7.
Proof.
  unfold build_message, research_attached. intros Hr Hm.
  destruct (base_message env analysis) as [message|e] eqn:Hb; [|discriminate Hm].
  destruct (base_message_shape env analysis message Hb) as (fixed & -> & Ht).
  cbn [bind_result] in Hm.
  destruct (py_get analysis (u "search_results") PNone) as [v|e]; [|discriminate Hr].
  cbn [bind_result] in Hm. rewrite Hr in Hm. injection Hm as <-.
  exists fixed. cbn [blocks]. split; [apply insert_before_last|].
  apply (f_equal (@List.length _)) in Ht. now rewrite length_map in Ht.
Qed.

End NotifierRuns.

(** X7. The message is built exactly when the analysis is an object whose
    suggestions can be iterated (a list, a string, an object) and whose
    classification and priority can be hashed (anything but a list or an
    object), a missing field counting as its default; otherwise building it
    raises [TypeError], and [AttributeError] on an analysis that is not an
    object. *)
Theorem build_message_type_errors (env : Env) (analysis : pyval) :
  match analysis with
  | PDict d =>
    if iterable (dict_get_or d (u "suggestions") (PList []))
       && hashable (dict_get_or d (u "classification") (PStr (u "other")))
       && hashable (dict_get_or d (u "priority") (PStr (u "medium")))
    then exists message, build_message env analysis = Ok message
    else build_message env analysis = Raise TypeError
  | _ => build_message env analysis = Raise AttributeError
  end.
Proof.
  destruct analysis as [| | | | | |d]; try reflexivity.
  rewrite build_message_typing. destruct (_ && _); eauto.
Qed.


(** X9. Whenever the Analyzer has made its second model call and returned,
    the message built from what it returned carries the research note,
    right before the footer and after the seven fixed blocks: whatever the
    search gave (results, none, an error text, no credential), the note says
    that a web search was made. *)
Theorem research_is_announced
        (env : Env) (w : World) (issue_title issue_body : str)
        (a : pyval) (tr : list event) (m : slack_message) :
  analyze_with_gemini env w issue_title issue_body = (Ok a, tr) ->
  count is_generate tr = 2 ->
  build_message env a = Ok m ->
  exists fixed,
    blocks m = fixed ++ [research_note; footer env] /\ List.length fixed = 7.
Proof.
  intros Hrun Hcount Hm. apply (build_message_with_note env a m); [|exact Hm].
  destruct (generate_content w (analysis_prompt issue_title issue_body))
    as [msg|[t|msg]] eqn:Hgen;
    try (destruct (analyze_without_text env w issue_title issue_body) as [e He];
         [intros t; rewrite Hgen; discriminate | rewrite He in Hrun; discriminate Hrun]).
  destruct (parsed_or_fallback t) as [| | | | | |d] eqn:Hd;
    try (rewrite (analyze_run env w _ _ _ Hgen), Hd in Hrun; discriminate Hrun).
  destruct (wants_research d) eqn:Hw.
  - destruct (analyze_research env w _ _ _ _ Hgen Hd Hw)
      as (query & s & trs & Hq & Hs & Hrun').
    rewrite Hrun' in Hrun.
    destruct (dict_get d (u "suggestions")) as [original|]; [|discriminate Hrun].
    destruct (generate_content w (EnrichmentPrompt issue_title query s original))
      as [msg|r]; [discriminate Hrun|].
    injection Hrun as <- _.
    unfold research_attached, py_get, dict_get_or.
    rewrite enrich_keeps_search_results.
    exact (web_search_text_truthy env w query s trs Hs).
  - rewrite (analyze_run env w _ _ _ Hgen), Hd in Hrun. cbv beta iota in Hrun.
    rewrite Hw in Hrun. injection Hrun as _ <-. discriminate Hcount.
Qed.

Lemma research_is_announced_witness :
  exists fixed,
    blocks (message_of (build_message sample_env (PDict fields_enriched)))
    = fixed ++ [research_note; footer sample_env]
    /\ List.length fixed = 7.
Proof.
  apply (research_is_announced sample_env
           (sample_world text_research text_enriched two_hits (PostReturns 200))
           (u "Crash on startup") [] (PDict fields_enriched)
           [ EvGenerate (analysis_prompt (u "Crash on startup") []);
             EvSearch (u "t-key") (PStr (u "crash 2.0")) 3;
             EvGenerate (EnrichmentPrompt (u "Crash on startup") (PStr (u "crash 2.0"))
                                          two_hits_text (PList [PStr (u "Check logs")])) ]
           (message_of (build_message sample_env (PDict fields_enriched)))).
  - vm_compute. reflexivity.
  - reflexivity.
  - vm_compute. reflexivity.
Defined.

(** X10. Without a search credential the research stage still runs: the
    Analyzer makes no search call, attaches the fixed unavailable message as
    the search text, and the message built from its result still carries the
    note that a web search was made. *)
Theorem research_note_without_search
        (env : Env) (w : World) (issue_title issue_body : str)
        (a : pyval) (tr : list event) (m : slack_message) :
  env_truthy (TAVILY_API_KEY env) = false ->
  analyze_with_gemini env w issue_title issue_body = (Ok a, tr) ->
  count is_generate tr = 2 ->
  build_message env a = Ok m ->
  count is_search tr = 0
  /\ py_get a (u "search_results") PNone = Ok (PStr search_unavailable)
  /\ In research_note (blocks m).
Proof.
  intros Hkey Hrun Hcount Hm.
  destruct (generate_content w (analysis_prompt issue_title issue_body))
    as [msg|[t|msg]] eqn:Hgen;
    try (destruct (analyze_without_text env w issue_title issue_body) as [e He];
         [intros t; rewrite Hgen; discriminate | rewrite He in Hrun; discriminate Hrun]).
  destruct (parsed_or_fallback t) as [| | | | | |d] eqn:Hd;
    try (rewrite (analyze_run env w _ _ _ Hgen), Hd in Hrun; discriminate Hrun).
  destruct (wants_research d) eqn:Hw.
  - destruct (analyze_research env w _ _ _ _ Hgen Hd Hw)
      as (query & s & trs & Hq & Hs & Hrun').
    assert (Hsearch : s = search_unavailable /\ trs = []).
    { rewrite web_search_run in Hs.
      destruct (TAVILY_API_KEY env) as [[|c k]|]; try discriminate Hkey;
        injection Hs as <- <-; now split. }
    destruct Hsearch as [-> ->].
    rewrite Hrun' in Hrun.
    destruct (dict_get d (u "suggestions")) as [original|]; [|discriminate Hrun].
    destruct (generate_content w (EnrichmentPrompt issue_title query search_unavailable original))
      as [msg|r]; [discriminate Hrun|].
    injection Hrun as <- <-.
    split; [reflexivity|]. split.
    + unfold py_get, dict_get_or. now rewrite enrich_keeps_search_results.
    + assert (Hr : research_attached
                     (PDict (enrich (dict_set d (u "search_results")
                                              (PStr search_unavailable)) original r))
                   = true).
      { unfold research_attached, py_get, dict_get_or.
        now rewrite enrich_keeps_search_results. }
      destruct (build_message_with_note env _ m Hr Hm) as (fixed & -> & _).
      apply in_or_app. right. now left.
  - rewrite (analyze_run env w _ _ _ Hgen), Hd in Hrun. cbv beta iota in Hrun.
    rewrite Hw in Hrun. injection Hrun as _ <-. discriminate Hcount.
Qed.

Lemma research_note_without_search_witness :
  count is_search
    [ EvGenerate (analysis_prompt (u "Crash on startup") []);
      EvGenerate (EnrichmentPrompt (u "Crash on startup") (PStr (u "crash 2.0"))
                                   search_unavailable (PList [PStr (u "Check logs")])) ]
  = 0
  /\ py_get (PDict (dict_set (dict_set fields_research (u "search_results")
                                       (PStr search_unavailable))
                             (u "suggestions") (PList [PStr (u "Upgrade to 2.1")])))
            (u "search_results") PNone
     = Ok (PStr search_unavailable)
  /\ In research_note
        (blocks (message_of
                   (build_message bare_env
                      (PDict (dict_set (dict_set fields_research (u "search_results")
                                                 (PStr search_unavailable))
                                       (u "suggestions")
                                       (PList [PStr (u "Upgrade to 2.1")])))))).
Proof.
  apply (research_note_without_search bare_env
           (sample_world text_research text_enriched two_hits (PostReturns 200))
           (u "Crash on startup") []).
  - reflexivity.
  - vm_compute. reflexivity.
  - reflexivity.
  - vm_compute. reflexivity.
Defined.

(** X11. The suggestions block of the message has one bullet per item the
    suggestions value yields when it is iterated, however many: the entries
    of a list, the characters of a string, the keys of an object. *)
Theorem suggestions_one_bullet_per_item
        (env : Env) (d : dict) (items : list pyval) (message : list block) :
  py_iter (dict_get_or d (u "suggestions") (PList [])) = Ok items ->
  base_message env (PDict d) = Ok message ->
  nth_error message 5
  = Some (SectionText (Lit (u "*💡 Sugestões:*") :: Lit nl :: suggestions_text items))
  /\ List.length (filter is_bullet (suggestions_text items)) = List.length items.
Proof.
  intros Hiter Hb. split; [|apply suggestions_text_bullets].
  unfold base_message in Hb. cbn [py_get bind_result] in Hb.
  rewrite Hiter in Hb. cbn [bind_result] in Hb.
  destruct (table_get class_emoji _ _) as [cemoji|e]; [|discriminate Hb].
  cbn [bind_result] in Hb.
  destruct (table_get priority_emoji _ _) as [pemoji|e]; [|discriminate Hb].
  cbn [bind_result] in Hb. injection Hb as <-. reflexivity.
Qed.

Lemma suggestions_one_bullet_per_item_witness :
  nth_error (blocks_of sample_env
               (PDict [(u "summary", PStr (u "App crashes"));
                       (u "suggestions", PStr (u "Bisect"))])) 5
  = Some (SectionText
            (Lit (u "*💡 Sugestões:*") :: Lit nl
               :: suggestions_text [PStr (u "B"); PStr (u "i"); PStr (u "s");
                                    PStr (u "e"); PStr (u "c"); PStr (u "t")]))
  /\ List.length
       (filter is_bullet
          (suggestions_text [PStr (u "B"); PStr (u "i"); PStr (u "s");
                             PStr (u "e"); PStr (u "c"); PStr (u "t")]))
     = 6.
Proof.
  apply (suggestions_one_bullet_per_item sample_env
           [(u "summary", PStr (u "App crashes")); (u "suggestions", PStr (u "Bisect"))]
           [PStr (u "B"); PStr (u "i"); PStr (u "s"); PStr (u "e"); PStr (u "c"); PStr (u "t")]
           (blocks_of sample_env
              (PDict [(u "summary", PStr (u "App crashes"));
                      (u "suggestions", PStr (u "Bisect"))]))).
  - reflexivity.
  - vm_compute. reflexivity.
Defined.

(* ------------------------------------------------------------------------- *)
(** ** The whole run *)

Section MainRuns.

Variables (env : Env) (w : World).

(** Without the model credential [main] stops after three lines. *)
Lemma main_keyless :
  env_truthy (GOOGLE_API_KEY env) = false ->
  main env w =
  (Ok 1%Z,
   [ EvPrint [Lit (u "🔍 Analisando issue #"); Lit (ISSUE_NUMBER env);
              Lit (u ": "); Lit (ISSUE_TITLE env)];
     EvPrint [Lit (u "👤 Atribuída para: "); Lit (ASSIGNEE_USERNAME env)];
     EvPrint [Lit (u "❌ GOOGLE_API_KEY não configurada!")] ]).
Proof.
  intros Hkey. unfold main.
  destruct (GOOGLE_API_KEY env) as [[|c k]|]; [reflexivity|discriminate Hkey|reflexivity].
Qed.

(** With it, [main] is the Analyzer, the report, the Notifier, in this order,
    and stops at the first exception. *)
Lemma main_run :
  env_truthy (GOOGLE_API_KEY env) = true ->
  main env w =
  match analyze_with_gemini env w (ISSUE_TITLE env) (ISSUE_BODY env) with
  | (Raise e, tr) => (Raise e, opening_lines env ++ tr)
  | (Ok (PDict d), tr) =>
    match send_to_slack env w (PDict d) with
    | (Raise e, tr2) =>
      (Raise e,
       opening_lines env ++ tr ++ report_lines d
         ++ EvPrint [Lit (u "📤 Enviando para Slack...")] :: tr2)
    | (Ok _, tr2) =>
      (Ok 0%Z,
       opening_lines env ++ tr ++ report_lines d
         ++ EvPrint [Lit (u "📤 Enviando para Slack...")] :: tr2
         ++ [EvPrint [Lit (u "✅ Análise concluída!")]])
    end
  | (Ok _, tr) => (Raise AttributeError, opening_lines env ++ tr)
  end.
Proof.
  intros Hkey. unfold main, opening_lines, report_lines.
  destruct (GOOGLE_API_KEY env) as [[|c k]|]; try discriminate Hkey.
  unfold print. run_py.
  destruct (analyze_with_gemini env w (ISSUE_TITLE env) (ISSUE_BODY env)) as [[a|e] tr];
    [|reflexivity].
  destruct a as [| | | | | |d]; cbn [py_get app]; rewrite ?app_nil_r; try reflexivity.
  destruct (truthy (dict_get_or d (u "needs_research") PNone));
    destruct (send_to_slack env w (PDict d)) as [[b|e] tr2];
    cbn [app]; rewrite ?app_nil_r; reflexivity.
Qed.

End MainRuns.


(** X13. Without the model credential (the variable unset, or set to the
    empty string) the run prints its two opening lines and the error line,
    makes no call to any service, and ends with status 1. *)
Theorem main_without_model_credential (env : Env) (w : World) :
  env_truthy (GOOGLE_API_KEY env) = false ->
  main env w =
  (Ok 1%Z,
   [ EvPrint [Lit (u "🔍 Analisando issue #"); Lit (ISSUE_NUMBER env);
              Lit (u ": "); Lit (ISSUE_TITLE env)];
     EvPrint [Lit (u "👤 Atribuída para: "); Lit (ASSIGNEE_USERNAME env)];
     EvPrint [Lit (u "❌ GOOGLE_API_KEY não configurada!")] ])
  /\ exit_status (fst (main env w)) = 1%Z
  /\ count is_generate (snd (main env w)) = 0
  /\ count is_search (snd (main env w)) = 0
  /\ count is_post (snd (main env w)) = 0.
Proof.
  intros Hkey. rewrite (main_keyless env w Hkey). repeat split.
Qed.

Lemma main_without_model_credential_witness :
  main keyless_env (sample_world text_complete text_garbage two_hits (PostReturns 200)) =
  (Ok 1%Z,
   [ EvPrint [Lit (u "🔍 Analisando issue #"); Lit (u "7");
              Lit (u ": "); Lit (u "Crash on startup")];
     EvPrint [Lit (u "👤 Atribuída para: "); Lit (u "bob")];
     EvPrint [Lit (u "❌ GOOGLE_API_KEY não configurada!")] ])
  /\ exit_status
       (fst (main keyless_env
               (sample_world text_complete text_garbage two_hits (PostReturns 200))))
     = 1%Z
  /\ count is_generate
       (snd (main keyless_env
               (sample_world text_complete text_garbage two_hits (PostReturns 200))))
     = 0
  /\ count is_search
       (snd (main keyless_env
               (sample_world text_complete text_garbage two_hits (PostReturns 200))))
     = 0
  /\ count is_post
       (snd (main keyless_env
               (sample_world text_complete text_garbage two_hits (PostReturns 200))))
     = 0.
Proof.
  apply (main_without_model_credential keyless_env
           (sample_world text_complete text_garbage two_hits (PostReturns 200))).
  reflexivity.
Defined.

(** X14. An exception of the Analyzer ends the run: it is what [main]
    raises, nothing is printed after the Analyzer's events, and nothing is
    posted to Slack. *)
Theorem main_propagates_analyzer_failure
        (env : Env) (w : World) (e : exn) (tr : list event) :
  env_truthy (GOOGLE_API_KEY env) = true ->
  analyze_with_gemini env w (ISSUE_TITLE env) (ISSUE_BODY env) = (Raise e, tr) ->
  main env w = (Raise e, opening_lines env ++ tr)
  /\ count is_post (snd (main env w)) = 0
  /\ exit_status (fst (main env w)) = 1%Z.
Proof.
  intros Hkey Hrun. rewrite (main_run env w Hkey), Hrun. cbn [fst snd exit_status].
  split; [reflexivity|]. split; [|reflexivity].
  destruct (analyze_counts env w (ISSUE_TITLE env) (ISSUE_BODY env)) as (_ & _ & Hp & _).
  rewrite Hrun in Hp. cbn [snd] in Hp.
  now rewrite count_app, count_opening_lines, Hp.
Qed.

Lemma main_propagates_analyzer_failure_witness :
  main sample_env (silent_world (GenRaises (u "503 overloaded")))
  = (Raise (ServiceError (u "503 overloaded")),
     opening_lines sample_env
       ++ [EvGenerate (analysis_prompt (u "Crash on startup") [])])
  /\ count is_post (snd (main sample_env (silent_world (GenRaises (u "503 overloaded")))))
     = 0
  /\ exit_status (fst (main sample_env (silent_world (GenRaises (u "503 overloaded")))))
     = 1%Z.
Proof.
  apply (main_propagates_analyzer_failure sample_env
           (silent_world (GenRaises (u "503 overloaded")))
           (ServiceError (u "503 overloaded"))
           [EvGenerate (analysis_prompt (u "Crash on startup") [])]).
  - reflexivity.
  - vm_compute. reflexivity.
Defined.








(* ------------------------------------------------------------------------- *)
(** ** The fence step on a response that is cut short *)

Section TrailingSpace.

Lemma lstrip_spaces_app (ws s : str) :
  forallb isspace ws = true -> lstrip (ws ++ s) = lstrip s.
Proof.
  induction ws as [|c ws IH]; [reflexivity|]. cbn [forallb app lstrip].
  intros H. apply andb_true_iff in H as [-> H]. auto.
Qed.

Lemma lstrip_app_nonspace (x : str) (c : char) (y : str) :
  isspace c = false -> lstrip (x ++ c :: y) = lstrip x ++ c :: y.
Proof.
  intros Hc. induction x as [|d x IH]; cbn [app lstrip].
  - now rewrite Hc.
  - destruct (isspace d); [exact IH|reflexivity].
Qed.

Lemma lstrip_app_spaces (s ws : str) :
  forallb isspace ws = true ->
  lstrip (s ++ ws) = match lstrip s with [] => [] | r => r ++ ws end.
Proof.
  intros Hws. induction s as [|d s IH]; cbn [app lstrip].
  - rewrite <- (app_nil_r ws), lstrip_spaces_app by exact Hws. reflexivity.
  - destruct (isspace d); [exact IH|reflexivity].
Qed.

Lemma rstrip_app_spaces (s ws : str) :
  forallb isspace ws = true -> rstrip (s ++ ws) = rstrip s.
Proof.
  intros Hws. unfold rstrip. rewrite rev_app_distr, lstrip_spaces_app; [reflexivity|].
  rewrite forallb_forall in *. intros x Hx. apply Hws. now apply in_rev.
Qed.

(** [rstrip] stops at a character that is not white space. *)
Lemma rstrip_app_nonspace (a : str) (c : char) (b : str) :
  isspace c = false -> rstrip ((a ++ [c]) ++ b) = (a ++ [c]) ++ rstrip b.
Proof.
  intros Hc. unfold rstrip.
  rewrite !rev_app_distr. cbn [rev app].
  rewrite (lstrip_app_nonspace (rev b) c (rev a) Hc).
  rewrite rev_app_distr. cbn [rev]. now rewrite rev_involutive.
Qed.

(** Trailing white space taken off first changes nothing for [strip]. *)
Lemma strip_rstrip (s : str) : strip (rstrip s) = strip s.
Proof.
  destruct (rstrip_split s) as (ws & E & Hws).
  unfold strip. rewrite E at 2. rewrite (lstrip_app_spaces _ _ Hws).
  destruct (lstrip (rstrip s)) as [|c r]; [reflexivity|].
  symmetry. now apply rstrip_app_spaces.
Qed.

Lemma startswith_app_r (a b p : str) :
  startswith a p = true -> startswith (a ++ b) p = true.
Proof.
  intros H. apply startswith_inv in H as [rest ->].
  rewrite <- app_assoc. apply startswith_app.
Qed.

Lemma contains_prefix (a b p : str) :
  p <> [] -> contains (a ++ b) p = false -> contains a p = false.
Proof.
  intros Hp. induction a as [|c a IH]; cbn [app contains].
  - intros _. destruct p; [congruence|reflexivity].
  - intros H. apply orb_false_iff in H as [Hs Hc].
    rewrite (IH Hc), orb_false_r.
    destruct (startswith (c :: a) p) eqn:S; [|reflexivity].
    pose proof (startswith_app_r (c :: a) b p S) as S2. cbn [app] in S2. congruence.
Qed.

(** A text without the separator is one piece. *)
Lemma split_from_no_sep (sep s : str) :
  sep <> [] -> contains s sep = false ->
  forall cur, split_from sep 0 cur s = [rev cur ++ s].
Proof.
  intros Hsep. induction s as [|c s IH]; intros H cur.
  - cbn. now rewrite app_nil_r.
  - cbn [contains] in H. apply orb_false_iff in H as [Hs Hc].
    cbn [split_from]. rewrite Hs, (IH Hc). cbn [rev].
    now rewrite <- app_assoc.
Qed.

End TrailingSpace.

(** X19. The cleaning of the response text never raises: a text that starts
    with the fence marker always splits into at least two pieces, so the
    index [1] exists; and what it returns is stripped. *)
Theorem clean_response_never_raises (text : str) :
  exists r, clean_response text = Ok r /\ strip r = r.
Proof.
  unfold clean_response. destruct (strip_fence_ok (strip text)) as [r ->].
  exists (strip r). split; [reflexivity|apply strip_idem].
Qed.

(** X20. A response that opens a code fence and never closes it (one cut
    short, say) is cleaned to the text after the opening marker, without a
    [json] tag right after the marker when there is one, stripped; another
    language tag stays in the text. *)
Theorem unclosed_fence_is_dropped (t : str) :
  contains t fence = false ->
  clean_response (fence ++ t)
  = Ok (strip (if startswith t (u "json") then slice_from 4 t else t)).
Proof.
  intros Hfree.
  assert (Hstrip : strip (fence ++ t) = fence ++ rstrip t).
  { unfold strip.
    replace (lstrip (fence ++ t)) with (fence ++ t) by reflexivity.
    exact (rstrip_app_nonspace [96%N; 96%N] 96%N t eq_refl). }
  destruct (rstrip_split t) as (ws & E & Hws).
  assert (Hfree' : contains (rstrip t) fence = false).
  { apply (contains_prefix (rstrip t) ws); [discriminate|]. now rewrite <- E. }
  unfold clean_response. rewrite Hstrip. unfold strip_fence.
  rewrite startswith_app. unfold split.
  rewrite split_from_leading_sep by discriminate.
  rewrite (split_from_no_sep fence (rstrip t)) by (discriminate || exact Hfree').
  cbn [rev app list_index nth_error bind_result]. f_equal.
  destruct (startswith t (u "json")) eqn:S.
  - apply startswith_inv in S as [rest ->].
    replace (rstrip (u "json" ++ rest)) with (u "json" ++ rstrip rest)
      by (symmetry; exact (rstrip_app_nonspace [106%N; 115%N; 111%N] 110%N rest eq_refl)).
    rewrite startswith_app.
    change (slice_from 4 (u "json" ++ rstrip rest)) with (rstrip rest).
    change (slice_from 4 (u "json" ++ rest)) with rest.
    apply strip_rstrip.
  - destruct (startswith (rstrip t) (u "json")) eqn:S'.
    + rewrite E, (startswith_app_r (rstrip t) ws (u "json") S') in S. discriminate S.
    + apply strip_rstrip.
Qed.

Lemma unclosed_fence_is_dropped_witness :
  clean_response (fence ++ u "json" ++ nl ++ text_complete)
  = Ok (strip (if startswith (u "json" ++ nl ++ text_complete) (u "json")
               then slice_from 4 (u "json" ++ nl ++ text_complete)
               else u "json" ++ nl ++ text_complete)).
Proof.
  apply (unclosed_fence_is_dropped (u "json" ++ nl ++ text_complete)).
  vm_compute. reflexivity.
Defined.
